(** * User Login System: accounts, authentication, JSON persistence

    A shallow embedding of [main.py] and the properties of its account model:
    [User] / [AdminUser], [save_users] / [load_users], [find_user] and the
    menu loop of [main].

    Modelling conventions.
    - Python values that can sit in a JSON document are the type [value];
      the attributes of an account hold such values, as nothing in the
      source checks their types when a file is loaded.
    - Python [int] is unbounded: [Z]. Python [float] is IEEE binary64:
      the primitive [float].
    - A [dict] with string keys is a [gmap string value].
    - [print] appends an [output] event (the message with the values that
      its f-string interpolates) to the [stdout] of the [world], which is
      the log of all that was printed so far.
    - [files] maps a file name to the JSON document that [json.load]
      returns for that file, and has no entry for a file that does not
      exist: the text encoding of the [json] library is not part of this
      program. A file that [json.load] refuses is not modelled.
    - [json.dump] writes an [int] through its conversion to text, which
      the interpreter refuses with [ValueError] for more than
      [max_str_digits] decimal digits: [save_users] raises then.
    - Exceptions are the [Raise] outcomes of the monad [M]; the program
      catches only [FileNotFoundError], which is the [None] lookup of
      [files]. An exception ends the program, and a [Raise] outcome
      carries no world: what a file holds after a save that raised is
      not modelled.
    - Writing a message to the console, and formatting the values in it,
      are taken to succeed: [print] does not raise.
    - The account objects all live in the one list [users]; a reference to
      an account is its position in that list, and a method that mutates
      its target returns the updated object, which the caller stores back
      at that position.
    - What [prompt_menu] and [prompt_nonempty] return is the [command]
      given to an iteration of the loop of [main]; the menu and the
      prompts they write are not recorded in [stdout], and an input that
      ends in the middle of the prompts of one iteration is not
      modelled. *)

From Stdlib Require Import ZArith String Ascii.
From Stdlib Require Import Floats.PrimFloat.
From stdpp Require Import gmap strings list fin_maps.

Local Open Scope Z_scope.
Set Warnings "-register-all".

(** ** Python values *)

Inductive value : Type :=
| VNone
| VBool (b : bool)
| VInt (z : Z)
| VFloat (f : float)
| VStr (s : string)
| VList (l : list value)
| VDict (d : gmap string value).

(** [bool(v)]: the truth value that [if] and [not] test. *)
Definition truthy (v : value) : bool :=
  match v with
  | VNone => false
  | VBool b => b
  | VInt z => negb (z =? 0)
  | VFloat f => negb (PrimFloat.eqb f PrimFloat.zero)
  | VStr s => match s with EmptyString => false | String _ _ => true end
  | VList l => match l with [] => false | _ :: _ => true end
  | VDict d => negb (size d =? 0)%nat
  end.

(** The default of [sys.int_info.default_max_str_digits]: an [int] of more
    decimal digits is not converted to text. *)
Definition max_str_digits : Z := 4300.

(** [str(z)] and [int.__repr__(z)] do not raise [ValueError]: the sign
    apart, [z] has at most [max_str_digits] digits. *)
Definition int_str_ok (z : Z) : bool := Z.abs z <? 10 ^ max_str_digits.

(** [json.dump] can write [v]: no [int] in it is over the digit limit. *)
Fixpoint json_ok (v : value) : bool :=
  match v with
  | VInt z => int_str_ok z
  | VList l => forallb json_ok l
  | VDict d => map_fold (λ _ v' ok, json_ok v' && ok) true d
  | VNone | VBool _ | VFloat _ | VStr _ => true
  end.

(** [v == s] for a [str] [s]: only an equal string compares equal. *)
Definition py_eq_str (v : value) (s : string) : bool :=
  match v with
  | VStr t => String.eqb t s
  | _ => false
  end.

(** ** Exceptions, outcomes and the world *)

Inductive exn : Type :=
| KeyError (key : string)
| TypeError
| AttributeError
| ValueError
| EOFError.

Inductive result (A : Type) : Type :=
| Ok (a : A)
| Raise (e : exn).
Arguments Ok {A} a.
Arguments Raise {A} e.

(** What the program prints: one constructor per message, the lines of
    the admin menu being one message. *)
Inductive output : Type :=
| AccountDisabled
| LoginSuccessful
| InvalidCredentials
| PasswordReset (name : value)
| UserDeactivated (name : value)
| UserReactivated (name : value)
| Saved (count : nat) (filename : string)
| NotAnAdmin
| AdminMenu
| UserNotFound
| BackToMainMenu
| NoAdminFound
| UsernameExists
| UserCreated (name : string)
| UsersHeader
| UserLine (name : value) (role : string) (act logins : value)
| Goodbye
| InvalidChoice.

Record world : Type := mkWorld {
  stdout : list output;
  files : gmap string value
}.

Definition M (A : Type) : Type := world → result (A * world).

Definition ret {A} (a : A) : M A := λ w, Ok (a, w).

Definition bind {A B} (m : M A) (k : A → M B) : M B :=
  λ w, match m w with
       | Ok (a, w') => k a w'
       | Raise e => Raise e
       end.

Definition raise {A} (e : exn) : M A := λ _, Raise e.

Definition lift {A} (r : result A) : M A :=
  λ w, match r with Ok a => Ok (a, w) | Raise e => Raise e end.

Definition print (o : output) : M unit :=
  λ w, Ok (tt, mkWorld (stdout w ++ [o]) (files w)).

Notation "'let*' x := m 'in' k" := (bind m (λ x, k))
  (at level 10, x pattern, m at level 100, k at level 200).
Notation "m ;; k" := (bind m (λ _, k))
  (at level 100, k at level 200, right associativity).

(** [v += 1]: defined on [int], [bool] (an [int] subclass) and [float]. *)
Definition py_add_one (v : value) : result value :=
  match v with
  | VInt z => Ok (VInt (z + 1))
  | VBool b => Ok (VInt (Z.b2z b + 1))
  | VFloat f => Ok (VFloat (PrimFloat.add f PrimFloat.one))
  | VNone | VStr _ | VList _ | VDict _ => Raise TypeError
  end.

(** [d[key]] on a [dict]. *)
Definition dict_getitem (d : gmap string value) (key : string) : result value :=
  match d !! key with
  | Some v => Ok v
  | None => Raise (KeyError key)
  end.

(** [d.get(key, dflt)] on a [dict]; [d.get(key)] has [dflt = None]. *)
Definition dict_get (d : gmap string value) (key : string) (dflt : value) : value :=
  default dflt (d !! key).

(** ** Models *)

(** [type(u)]: the class an account object was built by. *)
Inductive class : Type := User_class | AdminUser_class.

(** An account object: its class and its four attributes. *)
Record user : Type := mkUser {
  cls : class;
  username : value;
  password : value;
  active : value;
  login_count : value
}.

(** [isinstance(u, AdminUser)]. *)
Definition isinstance_AdminUser (u : user) : bool :=
  match cls u with AdminUser_class => true | User_class => false end.

Definition set_password (u : user) (v : value) : user :=
  mkUser (cls u) (username u) v (active u) (login_count u).
Definition set_active (u : user) (v : value) : user :=
  mkUser (cls u) (username u) (password u) v (login_count u).
Definition set_login_count (u : user) (v : value) : user :=
  mkUser (cls u) (username u) (password u) (active u) v.

Module User.

(** [User(username, password, active, login_count)]. *)
Definition init (username password active login_count : value) : user :=
  mkUser User_class username password active login_count.

Definition check_password (self : user) (pw : string) : bool :=
  py_eq_str (password self) pw.

(** Returns the object after the call and the returned [bool]. *)
Definition login (self : user) (username' password' : string) : M (user * bool) :=
  if negb (truthy (active self)) then
    print AccountDisabled ;;
    ret (self, false)
  else if py_eq_str (username self) username'
          && check_password self password' then
    let* n := lift (py_add_one (login_count self)) in
    let self := set_login_count self n in
    print LoginSuccessful ;;
    ret (self, true)
  else
    print InvalidCredentials ;;
    ret (self, false).

Definition to_dict (self : user) : gmap string value :=
  <["type" := VStr "User"]>
  (<["username" := username self]>
  (<["password" := password self]>
  (<["active" := active self]>
  (<["login_count" := login_count self]> ∅)))).

Definition from_dict (d : gmap string value) : result user :=
  match dict_getitem d "username" with
  | Raise e => Raise e
  | Ok u =>
    match dict_getitem d "password" with
    | Raise e => Raise e
    | Ok p =>
      Ok (init u p (dict_get d "active" (VBool true))
                   (dict_get d "login_count" (VInt 0)))
    end
  end.

End User.

Module AdminUser.

(** [AdminUser(username, password, active, login_count)]. *)
Definition init (username password active login_count : value) : user :=
  mkUser AdminUser_class username password active login_count.

(** Returns [user] after the call; [self] is not touched. *)
Definition reset_password (self user0 : user) (new_pw : string) : M user :=
  let user1 := set_password user0 (VStr new_pw) in
  print (PasswordReset (username user1)) ;;
  ret user1.

Definition deactivate (self user0 : user) : M user :=
  let user1 := set_active user0 (VBool false) in
  print (UserDeactivated (username user1)) ;;
  ret user1.

Definition reactivate (self user0 : user) : M user :=
  let user1 := set_active user0 (VBool true) in
  print (UserReactivated (username user1)) ;;
  ret user1.

Definition to_dict (self : user) : gmap string value :=
  let d := User.to_dict self in
  <["type" := VStr "AdminUser"]> d.

Definition from_dict (d : gmap string value) : result user :=
  match dict_getitem d "username" with
  | Raise e => Raise e
  | Ok u =>
    match dict_getitem d "password" with
    | Raise e => Raise e
    | Ok p =>
      Ok (init u p (dict_get d "active" (VBool true))
                   (dict_get d "login_count" (VInt 0)))
    end
  end.

End AdminUser.

(** [u.to_dict()]: the method of the class of [u]. *)
Definition to_dict (u : user) : gmap string value :=
  match cls u with
  | User_class => User.to_dict u
  | AdminUser_class => AdminUser.to_dict u
  end.

(** ** Persistence *)

Definition save_users (users : list user) (filename : string) : M unit :=
  λ w,
    let doc := VList ((λ u, VDict (to_dict u)) <$> users) in
    if json_ok doc then
      print (Saved (length users) filename)
            (mkWorld (stdout w) (<[filename := doc]> (files w)))
    else Raise ValueError.

(** [for d in raw]: the items that iterating [raw] yields. A [dict] yields
    its keys and a [str] its characters. *)
Definition py_iter (raw : value) : result (list value) :=
  match raw with
  | VList l => Ok l
  | VDict d => Ok ((λ kv, VStr kv.1) <$> map_to_list d)
  | VStr s => Ok ((λ c, VStr (String c EmptyString)) <$> list_ascii_of_string s)
  | VNone | VBool _ | VInt _ | VFloat _ => Raise TypeError
  end.

(** The body of the loop of [load_users] for one item [d]: the account
    that is appended to [users]. Only a [dict] has a [get] method. *)
Definition load_users_item (d : value) : result user :=
  match d with
  | VDict d =>
    if py_eq_str (dict_get d "type" VNone) "AdminUser"
    then AdminUser.from_dict d
    else User.from_dict d
  | _ => Raise AttributeError
  end.

(** The loop of [load_users], from the list [users] built so far. *)
Fixpoint load_users_loop (raw : list value) (users : list user)
  : result (list user) :=
  match raw with
  | [] => Ok users
  | d :: raw' =>
    match load_users_item d with
    | Ok u => load_users_loop raw' (users ++ [u])
    | Raise e => Raise e
    end
  end.

Definition load_users (filename : string) : M (list user) :=
  λ w,
    match files w !! filename with
    | None => ret [] w
    | Some raw =>
      match py_iter raw with
      | Ok items => lift (load_users_loop items []) w
      | Raise e => Raise e
      end
    end.

(** The position of the first account named [username'] and the account
    there, or [None]. *)
Fixpoint find_user (users : list user) (username' : string)
  : option (nat * user) :=
  match users with
  | [] => None
  | u :: users' =>
    if py_eq_str (username u) username' then Some (0%nat, u)
    else prod_map S id <$> find_user users' username'
  end.

(** ** Admin sub-menu *)

(** What the administrator enters after the admin menu is shown: the
    choice with the target username, and for [a] the new password (asked
    only when the target exists). *)
Inductive admin_choice : Type :=
| Admin_a (target new_pw : string)
| Admin_b (target : string)
| Admin_c (target : string)
| Admin_back.

Definition admin_actions (users : list user) (admin_name admin_pw : string)
    (choice : admin_choice) : M (list user) :=
  match find_user users admin_name with
  | None => print NotAnAdmin ;; ret users
  | Some (a, admin_user) =>
    if negb (isinstance_AdminUser admin_user) then
      print NotAnAdmin ;; ret users
    else
      let* (admin_user, ok) := User.login admin_user admin_name admin_pw in
      let users := <[a := admin_user]> users in
      if negb ok then ret users
      else
        print AdminMenu ;;
        match choice with
        | Admin_a target new_pw =>
          match find_user users target with
          | Some (t, u) =>
            let* u := AdminUser.reset_password admin_user u new_pw in
            ret (<[t := u]> users)
          | None => print UserNotFound ;; ret users
          end
        | Admin_b target =>
          match find_user users target with
          | Some (t, u) =>
            let* u := AdminUser.deactivate admin_user u in
            ret (<[t := u]> users)
          | None => print UserNotFound ;; ret users
          end
        | Admin_c target =>
          match find_user users target with
          | Some (t, u) =>
            let* u := AdminUser.reactivate admin_user u in
            ret (<[t := u]> users)
          | None => print UserNotFound ;; ret users
          end
        | Admin_back => print BackToMainMenu ;; ret users
        end
  end.

(** ** Main *)

(** What is entered in one iteration of the menu loop: the menu choice
    and the answers to the prompts of its branch. *)
Inductive command : Type :=
| Menu_1 (username' password' : string)
| Menu_2 (username' password' : string)
| Menu_3
| Menu_4 (admin_name admin_pw : string) (choice : admin_choice)
| Menu_5
| Menu_6
| Menu_invalid.

(** The listing of choice 3. *)
Fixpoint print_users (users : list user) : M unit :=
  match users with
  | [] => ret tt
  | u :: users' =>
    let role := if isinstance_AdminUser u then "Admin" else "User" in
    print (UserLine (username u) role (active u) (login_count u)) ;;
    print_users users'
  end.

(** [main] before its loop: load the accounts, then make sure that an
    administrator exists. *)
Definition main_startup : M (list user) :=
  let* users := load_users "users.json" in
  if negb (existsb isinstance_AdminUser users) then
    print NoAdminFound ;;
    ret (users ++ [AdminUser.init (VStr "admin") (VStr "admin123")
                                  (VBool true) (VInt 0)])
  else ret users.

(** One iteration of the loop of [main]: the accounts after it, and
    [false] when the loop is left by [break]. *)
Definition main_iteration (choice : command) (users : list user)
  : M (list user * bool) :=
  match choice with
  | Menu_1 username' password' =>
    match find_user users username' with
    | Some _ => print UsernameExists ;; ret (users, true)
    | None =>
      let users := users ++ [User.init (VStr username') (VStr password')
                                       (VBool true) (VInt 0)] in
      print (UserCreated username') ;;
      ret (users, true)
    end
  | Menu_2 username' password' =>
    match find_user users username' with
    | None => print UserNotFound ;; ret (users, true)
    | Some (i, u) =>
      let* (u, _) := User.login u username' password' in
      ret (<[i := u]> users, true)
    end
  | Menu_3 =>
    print UsersHeader ;;
    print_users users ;;
    ret (users, true)
  | Menu_4 admin_name admin_pw choice =>
    let* users := admin_actions users admin_name admin_pw choice in
    ret (users, true)
  | Menu_5 =>
    save_users users "users.json" ;;
    ret (users, true)
  | Menu_6 =>
    save_users users "users.json" ;;
    print Goodbye ;;
    ret (users, false)
  | Menu_invalid => print InvalidChoice ;; ret (users, true)
  end.

(** The loop of [main] over what is entered; [input] raises [EOFError]
    when nothing is left to read. *)
Fixpoint main_loop (input : list command) (users : list user)
  : M (list user) :=
  match input with
  | [] => raise EOFError
  | choice :: input' =>
    let* (users, continue) := main_iteration choice users in
    if continue : bool then main_loop input' users else ret users
  end.

Definition main (input : list command) : M unit :=
  let* users := main_startup in
  main_loop input users ;;
  ret tt.

(** ** Test drivers *)

(** [N] calls of [login] in a row on the same account with the same
    arguments: the account after the last call, and the [bool]s returned,
    first call first. *)
Fixpoint login_times (N : nat) (self : user) (username' password' : string)
  : M (user * list bool) :=
  match N with
  | O => ret (self, [])
  | S N' =>
    let* (self, ok) := User.login self username' password' in
    let* (self, oks) := login_times N' self username' password' in
    ret (self, ok :: oks)
  end.

(** No two accounts of the store have the same username. *)
Definition unique_usernames (users : list user) : Prop :=
  NoDup (username <$> users).

(** Some account of the store is an [AdminUser]. *)
Definition has_admin (users : list user) : Prop :=
  AdminUser_class ∈ cls <$> users.

(** [json.dump] can write the record of [u]: no attribute holds an
    [int] over the digit limit. *)
Definition dumpable (u : user) : bool :=
  json_ok (username u) && json_ok (password u)
  && json_ok (active u) && json_ok (login_count u).

(** ** Concrete accounts and files *)

Definition alice : user :=
  User.init (VStr "alice") (VStr "pw1") (VBool true) (VInt 0).

Definition default_admin : user :=
  AdminUser.init (VStr "admin") (VStr "admin123") (VBool true) (VInt 0).

(** [alice] with the largest count that the interpreter converts to
    text: 4300 nines. *)
Definition alice_nines : user :=
  User.init (VStr "alice") (VStr "pw1") (VBool true) (VInt (10 ^ 4300 - 1)).

(** No output yet, no file. *)
Definition w0 : world := mkWorld [] ∅.

(** A record of a [users.json] with the given tag, name and password
    and no other field. *)
Definition record (tag name pw : string) : gmap string value :=
  <["type" := VStr tag]>
  (<["username" := VStr name]>
  (<["password" := VStr pw]> ∅)).

(** A [users.json] that lists the name [bob] twice. *)
Definition w_bob_twice : world :=
  mkWorld [] {[ "users.json" :=
    VList [VDict (record "AdminUser" "admin" "admin123");
           VDict (record "User" "bob" "x");
           VDict (record "User" "bob" "y")] ]}.

(** A [users.json] whose only account is a regular one named [admin]. *)
Definition w_regular_admin : world :=
  mkWorld [] {[ "users.json" := VList [VDict (record "User" "admin" "pw")] ]}.

(** Three records without [active] and [login_count]: tagged
    [AdminUser], tagged with a name that is no class, and without tag. *)
Definition records_tags : list (gmap string value) :=
  [ record "AdminUser" "root" "r00t";
    record "Moderator" "mod" "m0d";
    delete "type" (record "User" "carol" "c") ].

Definition w_tags : world :=
  mkWorld [] {[ "users.json" := VList (VDict <$> records_tags) ]}.

(** A complete record followed by one without [password]. *)
Definition w_no_password : world :=
  mkWorld [] {[ "users.json" :=
    VList [VDict (record "User" "dave" "d");
           VDict (delete "password" (record "User" "erin" "e"))] ]}.

(** An account whose attributes have the types that [__init__] declares:
    [str], [str], [bool] and [int]. *)
Definition well_typed (u : user) : Prop :=
  ∃ (n p : string) (a : bool) (k : Z),
    username u = VStr n ∧ password u = VStr p
    ∧ active u = VBool a ∧ login_count u = VInt k.

(** The world after a first run in which [alice] is created and the
    program is left by choice 6. *)
Definition w_first_run : world :=
  mkWorld [NoAdminFound; UserCreated "alice"; Saved 2 "users.json"; Goodbye]
          {[ "users.json" :=
               VList [VDict (to_dict default_admin); VDict (to_dict alice)] ]}.

(** The store that the file of [w_bob_twice] loads as. *)
Definition users_two_bobs : list user :=
  [ default_admin;
    mkUser User_class (VStr "bob") (VStr "x") (VBool true) (VInt 0);
    mkUser User_class (VStr "bob") (VStr "y") (VBool true) (VInt 0) ].

(** ** Authentication *)

Ltac run_monad :=
  unfold bind, ret, print, lift, raise; simpl.

Lemma py_eq_str_refl (s : string) : py_eq_str (VStr s) s = true.
Proof. simpl. apply String.eqb_refl. Qed.

Lemma py_eq_str_true (v : value) (s : string) :
  py_eq_str v s = true ↔ v = VStr s.
Proof.
  destruct v; simpl; try (split; [discriminate | intros [=]]).
  rewrite String.eqb_eq. split; [by intros -> | by intros [= ->]].
Qed.

Lemma py_eq_str_false (v : value) (s : string) :
  py_eq_str v s = false ↔ v ≠ VStr s.
Proof.
  rewrite <- py_eq_str_true. destruct (py_eq_str v s); split; congruence.
Qed.

(** One successful login on an account whose attributes have the types
    the class declares. *)
Lemma login_active_match (self : user) (u p : string) (n : Z) (w : world) :
  username self = VStr u →
  password self = VStr p →
  active self = VBool true →
  login_count self = VInt n →
  User.login self u p w
  = Ok ((set_login_count self (VInt (n + 1)), true),
        mkWorld (stdout w ++ [LoginSuccessful]) (files w)).
Proof.
  intros Hu Hp Ha Hn. unfold User.login, User.check_password.
  rewrite Hu, Hp, Ha, Hn, !py_eq_str_refl. reflexivity.
Qed.

Lemma login_times_from (N : nat) :
  ∀ (self : user) (u p : string) (n : Z) (w : world),
    username self = VStr u →
    password self = VStr p →
    active self = VBool true →
    login_count self = VInt n →
    ∃ w', login_times N self u p w
          = Ok ((set_login_count self (VInt (n + Z.of_nat N)),
                 replicate N true), w').
Proof.
  induction N as [|N IH]; intros self u p n w Hu Hp Ha Hn.
  - exists w. simpl. unfold ret. rewrite Z.add_0_r, <- Hn. by destruct self.
  - cbn [login_times]. unfold bind at 1.
    rewrite (login_active_match self u p n w Hu Hp Ha Hn).
    destruct (IH (set_login_count self (VInt (n + 1))) u p (n + 1)
                 (mkWorld (stdout w ++ [LoginSuccessful]) (files w)))
      as [w' Hw']; try done.
    exists w'. unfold bind. rewrite Hw'. unfold ret. simpl.
    do 3 f_equal. unfold set_login_count. simpl. do 2 f_equal. lia.
Qed.

(** C3: on an account with [active = True], [login] with the account's own
    username and password returns [True] (printing "Login successful.")
    and adds exactly 1 to [login_count], touching nothing else; from
    [login_count = 0], [N] such calls in a row all return [True] and
    leave [login_count = N]. *)
Theorem login_success_increments (self : user) (u p : string) (n : Z) (w : world) :
  username self = VStr u →
  password self = VStr p →
  active self = VBool true →
  login_count self = VInt n →
  User.login self u p w
  = Ok ((mkUser (cls self) (VStr u) (VStr p) (VBool true) (VInt (n + 1)), true),
        mkWorld (stdout w ++ [LoginSuccessful]) (files w))
  ∧ (n = 0 →
     ∀ N : nat, ∃ w',
       login_times N self u p w
       = Ok ((mkUser (cls self) (VStr u) (VStr p) (VBool true) (VInt (Z.of_nat N)),
              replicate N true), w')).
Proof.
  intros Hu Hp Ha Hn. split.
  - rewrite (login_active_match self u p n w Hu Hp Ha Hn).
    unfold set_login_count. by rewrite Hu, Hp, Ha.
  - intros -> N.
    destruct (login_times_from N self u p 0 w Hu Hp Ha Hn) as [w' Hw'].
    exists w'. rewrite Hw'. unfold set_login_count.
    by rewrite Hu, Hp, Ha, Z.add_0_l.
Qed.

(** [alice] logs in: once, and three times in a row. *)
Lemma login_success_increments_witness :
  User.login alice "alice" "pw1" w0
  = Ok ((mkUser User_class (VStr "alice") (VStr "pw1") (VBool true) (VInt 1), true),
        mkWorld [LoginSuccessful] ∅)
  ∧ ∃ w', login_times 3 alice "alice" "pw1" w0
          = Ok ((mkUser User_class (VStr "alice") (VStr "pw1") (VBool true) (VInt 3),
                 [true; true; true]), w').
Proof.
  destruct (login_success_increments alice "alice" "pw1" 0 w0
              eq_refl eq_refl eq_refl eq_refl) as [H1 H2].
  split; [exact H1 | exact (H2 eq_refl 3%nat)].
Defined.

(** C4: on an account with [active = False], [login] returns [False] and
    prints "Account disabled." whatever username and password are given,
    the account's own included; the account, and so its [login_count],
    is unchanged. *)
Theorem login_disabled (self : user) (u p : string) (w : world) :
  active self = VBool false →
  User.login self u p w
  = Ok ((self, false), mkWorld (stdout w ++ [AccountDisabled]) (files w)).
Proof.
  intros Ha. unfold User.login. by rewrite Ha.
Qed.

(** [alice], deactivated, with her own username and password. *)
Lemma login_disabled_witness :
  User.login (set_active alice (VBool false)) "alice" "pw1" w0
  = Ok ((set_active alice (VBool false), false), mkWorld [AccountDisabled] ∅).
Proof.
  exact (login_disabled (set_active alice (VBool false))
                        "alice" "pw1" w0 eq_refl).
Defined.

(** C5: whenever [login] returns [False] (disabled account, other
    username or other password) the account after the call is the account
    before it: class, [username], [password], [active] and [login_count]
    are unchanged. *)
Theorem login_failure_frame (self self' : user) (u p : string) (w w' : world) :
  User.login self u p w = Ok ((self', false), w') →
  self' = self
  ∧ username self' = username self ∧ password self' = password self
  ∧ active self' = active self ∧ login_count self' = login_count self.
Proof.
  unfold User.login. intros H.
  assert (self' = self) as ->; [|done].
  destruct (negb (truthy (active self))).
  - by injection H as <- _.
  - destruct (py_eq_str (username self) u && User.check_password self p).
    + revert H. run_monad. by destruct (py_add_one (login_count self)).
    + by injection H as <- _.
Qed.

(** [alice] with a wrong password. *)
Lemma login_failure_frame_witness :
  ∃ self' w',
    User.login alice "alice" "wrong" w0 = Ok ((self', false), w')
    ∧ self' = alice.
Proof.
  eexists _, _. split; [reflexivity|].
  exact (proj1 (login_failure_frame alice _ "alice" "wrong" w0 _ eq_refl)).
Defined.

(** The three ways to fail: each returns [False] with its message and
    the account as it was. *)
Lemma login_failure_cases (self : user) (u p : string) (w : world) :
  truthy (active self) = false
  ∨ username self ≠ VStr u
  ∨ password self ≠ VStr p →
  ∃ msg,
    User.login self u p w
    = Ok ((self, false), mkWorld (stdout w ++ [msg]) (files w))
    ∧ (msg = AccountDisabled ∨ msg = InvalidCredentials).
Proof.
  intros Hcase. unfold User.login, User.check_password.
  destruct (truthy (active self)); simpl; [|by eexists; eauto].
  destruct Hcase as [?|[Hu%py_eq_str_false|Hp%py_eq_str_false]]; [done|..].
  - rewrite Hu. by eexists; eauto.
  - rewrite Hp, andb_false_r. by eexists; eauto.
Qed.

(** C10: [reset_password] checks nothing about the new password: for every
    target and every string, the empty one included, the target's
    [password] becomes that string, and its class, [username], [active]
    and [login_count] stay as they were. *)
Theorem reset_password_unchecked (self target : user) (new_pw : string) (w : world) :
  AdminUser.reset_password self target new_pw w
  = Ok (mkUser (cls target) (username target) (VStr new_pw)
               (active target) (login_count target),
        mkWorld (stdout w ++ [PasswordReset (username target)]) (files w))
  ∧ AdminUser.reset_password self target "" w
    = Ok (mkUser (cls target) (username target) (VStr "")
                 (active target) (login_count target),
          mkWorld (stdout w ++ [PasswordReset (username target)]) (files w)).
Proof. done. Qed.

(** ** Persistence *)

Lemma load_users_item_to_dict (u : user) :
  load_users_item (VDict (to_dict u)) = Ok u.
Proof. by destruct u as [[] un pw a lc]. Qed.

Lemma load_users_loop_to_dict (us : list user) :
  ∀ acc : list user,
    load_users_loop ((λ u, VDict (to_dict u)) <$> us) acc = Ok (acc ++ us).
Proof.
  induction us as [|u us IH]; intros acc.
  - simpl. by rewrite app_nil_r.
  - rewrite fmap_cons. cbn [load_users_loop].
    rewrite load_users_item_to_dict, IH. by rewrite <- app_assoc.
Qed.

(** Loading a file that holds what [save_users] writes for [us]. *)
Lemma load_users_saved (us : list user) (filename : string) (w : world) :
  files w !! filename = Some (VList ((λ u, VDict (to_dict u)) <$> us)) →
  load_users filename w = Ok (us, w).
Proof.
  intros Hf. unfold load_users. rewrite Hf. simpl.
  unfold lift. by rewrite load_users_loop_to_dict.
Qed.

Lemma json_ok_dict (d : gmap string value) :
  json_ok (VDict d) = true ↔ ∀ k v, d !! k = Some v → json_ok v = true.
Proof.
  simpl. induction d as [|k v d Hk Hfold IH] using map_first_key_ind.
  - rewrite map_fold_empty. split; [|done]. intros _ k v.
    by rewrite lookup_empty.
  - rewrite map_fold_insert_first_key by done.
    rewrite andb_true_iff, IH. split.
    + intros [Hv Hd] k' v'. rewrite lookup_insert.
      case_decide; [by intros [= <-]|]. apply Hd.
    + intros H. split.
      * apply (H k). by rewrite lookup_insert_eq.
      * intros k' v' Hk'. apply (H k').
        rewrite lookup_insert_ne; [done|]. intros ->. congruence.
Qed.

Lemma json_ok_to_dict (u : user) :
  json_ok (VDict (to_dict u)) = true ↔ dumpable u = true.
Proof.
  unfold dumpable. rewrite !andb_true_iff, json_ok_dict. split.
  - intros H. split_and!; [apply (H "username")|apply (H "password")
                          |apply (H "active")|apply (H "login_count")];
      by destruct u as [[] un pw a lc].
  - intros [[[Hu Hp] Ha] Hl] k v.
    destruct u as [[] un pw a lc]; unfold to_dict, AdminUser.to_dict,
      User.to_dict; simpl in *;
      rewrite ?lookup_insert; repeat case_decide; try done;
      by intros [= <-].
Qed.

Lemma json_ok_saved (users : list user) :
  json_ok (VList ((λ u, VDict (to_dict u)) <$> users)) = true
  ↔ forallb dumpable users = true.
Proof.
  cbn [json_ok]. induction users as [|u users IH]; [done|].
  rewrite fmap_cons. cbn [forallb]. rewrite !andb_true_iff, IH.
  by rewrite json_ok_to_dict.
Qed.

(** [save_users] returns exactly for the stores that [json.dump] can
    write, and the file is then the record list of the store. *)
Lemma save_users_ok (users : list user) (filename : string) (w w1 : world) :
  save_users users filename w = Ok (tt, w1)
  ↔ forallb dumpable users = true
    ∧ w1 = mkWorld (stdout w ++ [Saved (length users) filename])
                   (<[filename := VList ((λ u, VDict (to_dict u)) <$> users)]>
                      (files w)).
Proof.
  unfold save_users. rewrite <- json_ok_saved.
  destruct (json_ok _); split; try done.
  - intros [= <-]. done.
  - by intros [_ ->].
  - by intros [? _].
Qed.

Lemma save_users_raises (users : list user) (filename : string) (w : world)
    (e : exn) :
  save_users users filename w = Raise e
  ↔ forallb dumpable users = false ∧ e = ValueError.
Proof.
  unfold save_users.
  destruct (json_ok _) eqn:Hok.
  - apply json_ok_saved in Hok. rewrite Hok. split; [done | by intros [? _]].
  - assert (forallb dumpable users = false) as ->.
    { destruct (forallb dumpable users) eqn:Hd; [|done].
      apply json_ok_saved in Hd. congruence. }
    split; [by intros [= <-] | by intros [_ ->]].
Qed.

(** An account of the declared types whose count is within the digit
    limit can be written. *)
Lemma well_typed_dumpable (u : user) :
  well_typed u →
  (∀ k, login_count u = VInt k → Z.abs k < 10 ^ max_str_digits) →
  dumpable u = true.
Proof.
  intros (n & p & a & k & Hu & Hp & Ha & Hk) Hlimit. unfold dumpable.
  rewrite Hu, Hp, Ha, Hk. cbn [json_ok andb]. unfold int_str_ok.
  apply Z.ltb_lt. by apply Hlimit.
Qed.

(** C1 as stated fails for a count over the digit limit: an account
    loaded with a [login_count] of 4300 nines logs in once, and
    [save_users] then raises [ValueError] and saves nothing to load. *)
Lemma save_users_long_count :
  User.login alice_nines "alice" "pw1" w0
  = Ok ((set_login_count alice (VInt (10 ^ 4300)), true),
        mkWorld [LoginSuccessful] ∅)
  ∧ save_users [default_admin; set_login_count alice (VInt (10 ^ 4300))]
               "users.json" (mkWorld [LoginSuccessful] ∅)
    = Raise ValueError
  ∧ ¬ ∃ w1,
        save_users [default_admin; set_login_count alice (VInt (10 ^ 4300))]
                   "users.json" (mkWorld [LoginSuccessful] ∅) = Ok (tt, w1)
        ∧ load_users "users.json" w1
          = Ok ([default_admin; set_login_count alice (VInt (10 ^ 4300))], w1).
Proof.
  assert (save_users
            [default_admin; set_login_count alice (VInt (10 ^ 4300))]
            "users.json" (mkWorld [LoginSuccessful] ∅)
          = Raise ValueError) as Hsave by (vm_compute; reflexivity).
  split_and!; [vm_compute; reflexivity | exact Hsave |].
  intros (w1 & Hok & _). rewrite Hsave in Hok. discriminate.
Qed.

(** C1, amended: for every list of accounts, of either class, in whose
    attributes no integer has more than 4300 decimal digits,
    [save_users] then [load_users] on the same file gives back the same
    list: same classes, same four attributes, same order. *)
Theorem save_load_roundtrip_within_limit (users : list user)
    (filename : string) (w : world) :
  forallb dumpable users = true →
  ∃ w1,
    save_users users filename w = Ok (tt, w1)
    ∧ load_users filename w1 = Ok (users, w1).
Proof.
  intros Hok. eexists. split; [by apply save_users_ok|].
  apply load_users_saved. simpl. apply lookup_insert_eq.
Qed.

(** The administrator and [alice] with a count of 4300 nines. *)
Lemma save_load_roundtrip_within_limit_witness :
  ∃ w1,
    save_users [default_admin; alice_nines] "users.json" w0 = Ok (tt, w1)
    ∧ load_users "users.json" w1 = Ok ([default_admin; alice_nines], w1).
Proof.
  apply (save_load_roundtrip_within_limit [default_admin; alice_nines]
           "users.json" w0).
  vm_compute. reflexivity.
Defined.

Lemma type_tag_admin (d : gmap string value) :
  py_eq_str (dict_get d "type" VNone) "AdminUser" = true
  ↔ d !! "type" = Some (VStr "AdminUser").
Proof.
  rewrite py_eq_str_true. unfold dict_get.
  destruct (d !! "type") as [v|]; simpl; split; congruence.
Qed.

Lemma load_users_item_record (d : gmap string value) (un pw : value) :
  d !! "username" = Some un →
  d !! "password" = Some pw →
  ∃ c, load_users_item (VDict d)
       = Ok (mkUser c un pw (default (VBool true) (d !! "active"))
                            (default (VInt 0) (d !! "login_count")))
       ∧ (c = AdminUser_class ↔ d !! "type" = Some (VStr "AdminUser"))
       ∧ (c = User_class ↔ d !! "type" ≠ Some (VStr "AdminUser")).
Proof.
  intros Hu Hp. unfold load_users_item.
  destruct (py_eq_str (dict_get d "type" VNone) "AdminUser") eqn:Ht.
  - apply type_tag_admin in Ht.
    exists AdminUser_class. unfold AdminUser.from_dict, dict_getitem.
    rewrite Hu, Hp. split; [done|]. split; split; congruence.
  - assert (d !! "type" ≠ Some (VStr "AdminUser")) as Hne.
    { intros H%type_tag_admin. congruence. }
    exists User_class. unfold User.from_dict, dict_getitem.
    rewrite Hu, Hp. split; [done|]. split; split; congruence.
Qed.

Lemma load_users_loop_records (records : list (gmap string value)) :
  Forall (λ d, is_Some (d !! "username") ∧ is_Some (d !! "password")) records →
  ∀ acc : list user, ∃ users,
    load_users_loop (VDict <$> records) acc = Ok (acc ++ users)
    ∧ Forall2 (λ d u,
        (cls u = AdminUser_class ↔ d !! "type" = Some (VStr "AdminUser"))
        ∧ (cls u = User_class ↔ d !! "type" ≠ Some (VStr "AdminUser"))
        ∧ d !! "username" = Some (username u)
        ∧ d !! "password" = Some (password u)
        ∧ active u = default (VBool true) (d !! "active")
        ∧ login_count u = default (VInt 0) (d !! "login_count"))
      records users.
Proof.
  induction 1 as [|d records [[un Hu] [pw Hp]] _ IH]; intros acc.
  - exists []. simpl. by rewrite app_nil_r.
  - destruct (load_users_item_record d un pw Hu Hp) as (c & Hitem & Hadm & Hreg).
    rewrite fmap_cons. cbn [load_users_loop]. rewrite Hitem.
    destruct (IH (acc ++ [mkUser c un pw (default (VBool true) (d !! "active"))
                                 (default (VInt 0) (d !! "login_count"))]))
      as (users & Hloop & Hall).
    eexists (_ :: users). rewrite Hloop, <- app_assoc. split; [done|].
    by constructor.
Qed.

(** C8: a file whose records all have [username] and [password] loads
    without an exception, record by record in order: the account is an
    [AdminUser] exactly when the record's [type] is the string
    "AdminUser" and a [User] for every other or missing [type]; its
    [username] and [password] are the record's; [active] is the record's,
    or [True] when the record has none; [login_count] is the record's, or
    [0] when the record has none. *)
Theorem load_users_rebuilds (records : list (gmap string value))
    (filename : string) (w : world) :
  files w !! filename = Some (VList (VDict <$> records)) →
  Forall (λ d, is_Some (d !! "username") ∧ is_Some (d !! "password")) records →
  ∃ users,
    load_users filename w = Ok (users, w)
    ∧ Forall2 (λ d u,
        (cls u = AdminUser_class ↔ d !! "type" = Some (VStr "AdminUser"))
        ∧ (cls u = User_class ↔ d !! "type" ≠ Some (VStr "AdminUser"))
        ∧ d !! "username" = Some (username u)
        ∧ d !! "password" = Some (password u)
        ∧ (d !! "active" = None → active u = VBool true)
        ∧ (∀ v, d !! "active" = Some v → active u = v)
        ∧ (d !! "login_count" = None → login_count u = VInt 0)
        ∧ (∀ v, d !! "login_count" = Some v → login_count u = v))
      records users.
Proof.
  intros Hf Hall.
  destruct (load_users_loop_records records Hall []) as (users & Hloop & Hrel).
  exists users. split.
  - unfold load_users. rewrite Hf. simpl. unfold lift. by rewrite Hloop.
  - eapply Forall2_impl; [exact Hrel|]. simpl.
    intros d u (? & ? & ? & ? & Ha & Hl). rewrite Ha, Hl.
    split_and!; try done.
    + by intros ->.
    + by intros v ->.
    + by intros ->.
    + by intros v ->.
Qed.

(** The three records of [records_tags]. *)
Lemma load_users_rebuilds_witness :
  ∃ users,
    load_users "users.json" w_tags = Ok (users, w_tags)
    ∧ Forall2 (λ d u,
        (cls u = AdminUser_class ↔ d !! "type" = Some (VStr "AdminUser"))
        ∧ (cls u = User_class ↔ d !! "type" ≠ Some (VStr "AdminUser"))
        ∧ d !! "username" = Some (username u)
        ∧ d !! "password" = Some (password u)
        ∧ (d !! "active" = None → active u = VBool true)
        ∧ (∀ v, d !! "active" = Some v → active u = v)
        ∧ (d !! "login_count" = None → login_count u = VInt 0)
        ∧ (∀ v, d !! "login_count" = Some v → login_count u = v))
      records_tags users.
Proof.
  apply (load_users_rebuilds records_tags "users.json" w_tags eq_refl).
  repeat constructor; eexists; reflexivity.
Defined.

(** The three records of [records_tags], loaded. *)
Example load_users_tags :
  load_users "users.json" w_tags
  = Ok ([ mkUser AdminUser_class (VStr "root") (VStr "r00t") (VBool true) (VInt 0);
          mkUser User_class (VStr "mod") (VStr "m0d") (VBool true) (VInt 0);
          mkUser User_class (VStr "carol") (VStr "c") (VBool true) (VInt 0) ],
        w_tags).
Proof. reflexivity. Qed.

Lemma load_users_item_missing (d : gmap string value) :
  d !! "username" = None ∨ d !! "password" = None →
  ∃ e, load_users_item (VDict d) = Raise e.
Proof.
  intros Hmiss. unfold load_users_item, AdminUser.from_dict, User.from_dict,
    dict_getitem.
  destruct (py_eq_str _ _), (d !! "username"), (d !! "password");
    try (by eexists); by destruct Hmiss.
Qed.

Lemma load_users_item_raises (d : gmap string value) (e : exn) :
  load_users_item (VDict d) = Raise e →
  e = KeyError "username" ∨ e = KeyError "password".
Proof.
  unfold load_users_item, AdminUser.from_dict, User.from_dict, dict_getitem.
  destruct (py_eq_str _ _), (d !! "username"), (d !! "password");
    intros [=]; auto.
Qed.

Lemma load_users_loop_missing (items : list value) :
  Exists (λ v, ∃ d, v = VDict d
                    ∧ (d !! "username" = None ∨ d !! "password" = None)) items →
  ∀ acc : list user, ∃ e,
    load_users_loop items acc = Raise e
    ∧ (Forall (λ v, ∃ d, v = VDict d) items →
       e = KeyError "username" ∨ e = KeyError "password").
Proof.
  induction items as [|v items IH]; intros Hex acc.
  - by apply Exists_nil in Hex.
  - cbn [load_users_loop]. destruct (load_users_item v) as [u|e] eqn:Hitem.
    + apply Exists_cons in Hex as [(d & -> & Hmiss)|Hex].
      * destruct (load_users_item_missing d Hmiss) as [e He]. congruence.
      * destruct (IH Hex (acc ++ [u])) as (e & He & Hkey).
        exists e. split; [done|]. intros Hall. apply Hkey.
        by apply Forall_cons in Hall as [_ ?].
    + exists e. split; [done|]. intros Hall.
      apply Forall_cons in Hall as [[d ->] _].
      by apply load_users_item_raises in Hitem.
Qed.

(** C9: when the file is a list in which some record has no [username]
    or no [password], [load_users] raises and returns no accounts: no
    default is used and the record is not skipped. When every item of the
    list is a record, the exception is the [KeyError] of one of the two
    keys. *)
Theorem load_users_missing_field (items : list value) (filename : string)
    (w : world) :
  files w !! filename = Some (VList items) →
  Exists (λ v, ∃ d, v = VDict d
                    ∧ (d !! "username" = None ∨ d !! "password" = None)) items →
  ∃ e,
    load_users filename w = Raise e
    ∧ (Forall (λ v, ∃ d, v = VDict d) items →
       e = KeyError "username" ∨ e = KeyError "password").
Proof.
  intros Hf Hex.
  destruct (load_users_loop_missing items Hex []) as (e & He & Hkey).
  exists e. split; [|done].
  unfold load_users. rewrite Hf. simpl. unfold lift. by rewrite He.
Qed.

(** The file of [w_no_password]. *)
Lemma load_users_missing_field_witness :
  ∃ e,
    load_users "users.json" w_no_password = Raise e
    ∧ (Forall (λ v, ∃ d, v = VDict d)
         [VDict (record "User" "dave" "d");
          VDict (delete "password" (record "User" "erin" "e"))] →
       e = KeyError "username" ∨ e = KeyError "password").
Proof.
  apply (load_users_missing_field _ "users.json" w_no_password eq_refl).
  apply Exists_cons_tl, Exists_cons_hd. eexists. split; [reflexivity|].
  right. reflexivity.
Defined.

(** The file of [w_no_password] stops the load at its second record. *)
Example load_users_no_password :
  load_users "users.json" w_no_password = Raise (KeyError "password").
Proof. reflexivity. Qed.

(** ** Lookup and account creation *)

Lemma find_user_None (users : list user) (u : string) :
  find_user users u = None ↔ VStr u ∉ username <$> users.
Proof.
  induction users as [|x users IH]; simpl.
  - split; [intros _; apply not_elem_of_nil | done].
  - rewrite not_elem_of_cons.
    destruct (py_eq_str (username x) u) eqn:Heq.
    + apply py_eq_str_true in Heq. split; [done | intros [? _]; congruence].
    + apply py_eq_str_false in Heq.
      destruct (find_user users u) as [[i y]|]; simpl.
      * split; [done|]. intros [_ Hnot]. by apply IH in Hnot.
      * split; [|done]. intros _. split; [congruence | by apply IH].
Qed.

Lemma find_user_Some (users : list user) (u : string) :
  ∀ (i : nat) (x : user),
    find_user users u = Some (i, x) →
    users !! i = Some x ∧ username x = VStr u.
Proof.
  induction users as [|y users IH]; intros i x; simpl; [done|].
  destruct (py_eq_str (username y) u) eqn:Heq.
  - intros [= <- <-]. by apply py_eq_str_true in Heq.
  - destruct (find_user users u) as [[j z]|]; simpl; [|done].
    intros [= <- <-]. by apply IH.
Qed.

Lemma find_user_present (users : list user) (u : string) :
  VStr u ∈ username <$> users → is_Some (find_user users u).
Proof.
  intros Hin. destruct (find_user users u) eqn:Hf; [done|].
  by apply find_user_None in Hf.
Qed.

Lemma find_user_appended (users : list user) (u : string) (new : user) :
  find_user users u = None →
  username new = VStr u →
  find_user (users ++ [new]) u = Some (length users, new).
Proof.
  intros Hnone Hnew. induction users as [|y users IH]; simpl in *.
  - by rewrite Hnew, py_eq_str_refl.
  - destruct (py_eq_str (username y) u); [done|].
    destruct (find_user users u); [done|]. by rewrite IH.
Qed.

(** C6: when no account of the store is named [u], choice 1 with [u] and
    [p] appends one account and reports it created, and [find_user] for
    [u] then returns that account, the last of the store: a [User] (not an
    [AdminUser]) with [username = u], [password = p], [active = True] and
    [login_count = 0]. *)
Theorem create_then_find (users : list user) (u p : string) (w : world) :
  VStr u ∉ username <$> users →
  main_iteration (Menu_1 u p) users w
  = Ok ((users ++ [mkUser User_class (VStr u) (VStr p) (VBool true) (VInt 0)],
         true),
        mkWorld (stdout w ++ [UserCreated u]) (files w))
  ∧ find_user
      (users ++ [mkUser User_class (VStr u) (VStr p) (VBool true) (VInt 0)]) u
    = Some (length users,
            mkUser User_class (VStr u) (VStr p) (VBool true) (VInt 0)).
Proof.
  intros Hfresh. apply find_user_None in Hfresh. split.
  - unfold main_iteration. by rewrite Hfresh.
  - by apply find_user_appended.
Qed.

(** [alice] is created in a store that holds only the default administrator. *)
Lemma create_then_find_witness :
  main_iteration (Menu_1 "alice" "pw1") [default_admin] w0
  = Ok (([default_admin; alice], true), mkWorld [UserCreated "alice"] ∅)
  ∧ find_user [default_admin; alice] "alice" = Some (1%nat, alice).
Proof.
  apply (create_then_find [default_admin] "alice" "pw1" w0).
  apply not_elem_of_cons. split; [discriminate | apply not_elem_of_nil].
Defined.

(** C7: when some account of the store is named exactly [u], choice 1
    with [u] reports that the username exists and leaves the store as it
    was: same accounts, same number of them. *)
Theorem create_duplicate_rejected (users : list user) (u p : string) (w : world) :
  VStr u ∈ username <$> users →
  main_iteration (Menu_1 u p) users w
  = Ok ((users, true), mkWorld (stdout w ++ [UsernameExists]) (files w)).
Proof.
  intros Hin. destruct (find_user_present users u Hin) as [[i x] Hf].
  unfold main_iteration. by rewrite Hf.
Qed.

(** A second [alice] is refused. *)
Lemma create_duplicate_rejected_witness :
  main_iteration (Menu_1 "alice" "other") [default_admin; alice] w0
  = Ok (([default_admin; alice], true), mkWorld [UsernameExists] ∅).
Proof.
  apply (create_duplicate_rejected [default_admin; alice] "alice" "other" w0).
  apply list_elem_of_further, list_elem_of_here.
Defined.

(** The match is on the exact string: [Alice] is not [alice]. *)
Example create_other_case :
  main_iteration (Menu_1 "Alice" "pw2") [default_admin; alice] w0
  = Ok (([default_admin; alice;
          mkUser User_class (VStr "Alice") (VStr "pw2") (VBool true) (VInt 0)],
         true),
        mkWorld [UserCreated "Alice"] ∅).
Proof. reflexivity. Qed.

(** ** Uniqueness of usernames *)

(** C2 as stated fails after load: [load_users] appends an account for
    every record, so a [users.json] that lists [bob] twice gives a store
    with two accounts named [bob], and the start of [main] keeps it. *)
Lemma startup_keeps_duplicates :
  ∃ users w',
    main_startup w_bob_twice = Ok (users, w')
    ∧ ¬ unique_usernames users.
Proof.
  eexists _, _. split; [reflexivity|].
  unfold unique_usernames. simpl. intros Hnd.
  apply NoDup_cons in Hnd as [_ Hnd]. apply NoDup_cons in Hnd as [Hnot _].
  apply Hnot, list_elem_of_here.
Qed.

(** The default administrator is appended without a lookup of its name:
    a file whose only account is a regular [admin] gives two accounts
    named [admin]. *)
Example startup_second_admin :
  main_startup w_regular_admin
  = Ok ([mkUser User_class (VStr "admin") (VStr "pw") (VBool true) (VInt 0);
         default_admin],
        mkWorld [NoAdminFound] (files w_regular_admin)).
Proof. reflexivity. Qed.

Lemma has_admin_existsb (users : list user) :
  existsb isinstance_AdminUser users = true ↔ has_admin users.
Proof.
  unfold has_admin. induction users as [|x users IH]; simpl.
  - split; [done | by intros ?%elem_of_nil].
  - rewrite orb_true_iff, IH, elem_of_cons. unfold isinstance_AdminUser.
    destruct (cls x); split; intros [?|?]; auto; done.
Qed.

Lemma fmap_insert_same {A B} (f : A → B) (l : list A) (i : nat) (x x' : A) :
  l !! i = Some x → f x' = f x → f <$> <[i := x']> l = f <$> l.
Proof.
  intros Hl Hf. rewrite list_fmap_insert, Hf.
  apply list_insert_id. by rewrite list_lookup_fmap, Hl.
Qed.

Lemma login_preserves (x x' : user) (u p : string) (b : bool) (w w' : world) :
  User.login x u p w = Ok ((x', b), w') →
  username x' = username x ∧ cls x' = cls x ∧ files w' = files w.
Proof.
  unfold User.login.
  destruct (negb (truthy (active x))); [by intros [= <- _ <-]|].
  destruct (py_eq_str (username x) u && User.check_password x p);
    [|by intros [= <- _ <-]].
  run_monad. destruct (py_add_one (login_count x)); [|done].
  by intros [= <- _ <-].
Qed.

Lemma print_users_files (users : list user) :
  ∀ w, ∃ w', print_users users w = Ok (tt, w') ∧ files w' = files w.
Proof.
  induction users as [|x users IH]; intros w; simpl.
  - by exists w.
  - run_monad. destruct (IH (mkWorld (stdout w ++
      [UserLine (username x) (if isinstance_AdminUser x then "Admin" else "User")
                (active x) (login_count x)]) (files w))) as (w' & -> & Hw').
    by exists w'.
Qed.

Lemma insert_preserves (users : list user) (i : nat) (x x' : user) :
  users !! i = Some x →
  username x' = username x →
  cls x' = cls x →
  username <$> <[i := x']> users = username <$> users
  ∧ cls <$> <[i := x']> users = cls <$> users.
Proof. intros. split; by eapply fmap_insert_same. Qed.

Lemma admin_actions_preserves (users users' : list user) (a p : string)
    (c : admin_choice) (w w' : world) :
  admin_actions users a p c w = Ok (users', w') →
  username <$> users' = username <$> users
  ∧ cls <$> users' = cls <$> users
  ∧ files w' = files w.
Proof.
  unfold admin_actions.
  destruct (find_user users a) as [[i x]|] eqn:Hfind;
    [|by intros [= <- <-]].
  destruct (negb (isinstance_AdminUser x)); [by intros [= <- <-]|].
  unfold bind at 1.
  destruct (User.login x a p w) as [[[x' ok] w1]|e] eqn:Hlogin; [|done].
  apply login_preserves in Hlogin as (Hn & Hc & Hw).
  apply find_user_Some in Hfind as [Hi _].
  destruct (insert_preserves users i x x' Hi Hn Hc) as [Hn1 Hc1].
  destruct ok; simpl; [|by intros [= <- <-]].
  rewrite <- Hn1, <- Hc1, <- Hw.
  generalize dependent (<[i := x']> users). intros users1 _ _.
  destruct c as [target new_pw|target|target|]; run_monad;
    try (destruct (find_user users1 target) as [[t y]|] eqn:Ht;
         [apply find_user_Some in Ht as [Ht _]|]);
    intros [= <- <-]; simpl; try done.
  all: split_and!; try done; by eapply fmap_insert_same.
Qed.

(** ** The outcomes of [login] *)

(** The decision table of [login]. *)
Lemma login_cases (self : user) (u p : string) (w : world) :
  (truthy (active self) = false
   ∧ User.login self u p w
     = Ok ((self, false), mkWorld (stdout w ++ [AccountDisabled]) (files w)))
  ∨ (truthy (active self) = true
     ∧ (username self ≠ VStr u ∨ password self ≠ VStr p)
     ∧ User.login self u p w
       = Ok ((self, false), mkWorld (stdout w ++ [InvalidCredentials]) (files w)))
  ∨ (truthy (active self) = true
     ∧ username self = VStr u ∧ password self = VStr p
     ∧ ((∃ n, py_add_one (login_count self) = Ok n
              ∧ User.login self u p w
                = Ok ((set_login_count self n, true),
                      mkWorld (stdout w ++ [LoginSuccessful]) (files w)))
        ∨ (py_add_one (login_count self) = Raise TypeError
           ∧ User.login self u p w = Raise TypeError))).
Proof.
  unfold User.login, User.check_password.
  destruct (truthy (active self)); simpl; [|by left].
  right.
  destruct (py_eq_str (username self) u) eqn:Hu; simpl.
  - destruct (py_eq_str (password self) p) eqn:Hp; simpl.
    + right. apply py_eq_str_true in Hu, Hp. split_and!; [done..|].
      run_monad. destruct (login_count self); simpl; eauto.
    + left. apply py_eq_str_false in Hp. auto.
  - left. apply py_eq_str_false in Hu. auto.
Qed.

(** X1: [login] returns [True] only for an account whose [active] is true
    in the sense of [if], and whose [username] and [password] are exactly
    the strings given; the account then differs from the one before only
    in [login_count], which is the old value plus one, and no file is
    touched. *)
Theorem login_true_only_if (self self' : user) (u p : string) (w w' : world) :
  User.login self u p w = Ok ((self', true), w') →
  truthy (active self) = true
  ∧ username self = VStr u
  ∧ password self = VStr p
  ∧ py_add_one (login_count self) = Ok (login_count self')
  ∧ self' = set_login_count self (login_count self')
  ∧ w' = mkWorld (stdout w ++ [LoginSuccessful]) (files w).
Proof.
  intros Hlogin.
  destruct (login_cases self u p w)
    as [[_ H]|[(_ & _ & H)|(Ha & Hu & Hp & [(n & Hn & H)|[_ H]])]];
    rewrite H in Hlogin; try done.
  injection Hlogin as <- <-. by rewrite Hn.
Qed.

(** [alice] logs in. *)
Lemma login_true_only_if_witness :
  ∃ self' w',
    User.login alice "alice" "pw1" w0 = Ok ((self', true), w')
    ∧ py_add_one (login_count alice) = Ok (login_count self').
Proof.
  exists (set_login_count alice (VInt 1)), (mkWorld [LoginSuccessful] ∅).
  split; [reflexivity|].
  exact (proj1 (proj2 (proj2 (proj2
    (login_true_only_if alice (set_login_count alice (VInt 1)) "alice" "pw1"
       w0 (mkWorld [LoginSuccessful] ∅) eq_refl))))).
Defined.

Lemma login_mismatch (self : user) (u p : string) (w : world) :
  truthy (active self) = true →
  username self ≠ VStr u ∨ password self ≠ VStr p →
  User.login self u p w
  = Ok ((self, false), mkWorld (stdout w ++ [InvalidCredentials]) (files w)).
Proof.
  intros Ha Hne.
  destruct (login_cases self u p w)
    as [[Hf _]|[(_ & _ & H)|(_ & Hu & Hp & _)]]; [congruence|done|].
  by destruct Hne.
Qed.

(** X2: on an account that is not disabled, a username or a password
    other than the account's gives "Invalid credentials.": [login] returns
    [False] and the account and the files are as before. *)
Theorem login_invalid_credentials (self : user) (u p : string) (w : world) :
  truthy (active self) = true →
  username self ≠ VStr u ∨ password self ≠ VStr p →
  User.login self u p w
  = Ok ((self, false), mkWorld (stdout w ++ [InvalidCredentials]) (files w)).
Proof. apply login_mismatch. Qed.

(** [alice] with the password in another letter case. *)
Lemma login_invalid_credentials_witness :
  User.login alice "alice" "PW1" w0
  = Ok ((alice, false), mkWorld [InvalidCredentials] ∅).
Proof.
  apply (login_invalid_credentials alice "alice" "PW1" w0 eq_refl).
  right. discriminate.
Defined.

(** X3: [login] raises exactly when the account is not disabled, username
    and password match, and [login_count] is not a number ([None], a
    string, a list or a dict, as a file may give it); the exception is
    then [TypeError]. *)
Theorem login_raises_iff (self : user) (u p : string) (w : world) (e : exn) :
  User.login self u p w = Raise e
  ↔ e = TypeError
    ∧ truthy (active self) = true
    ∧ username self = VStr u
    ∧ password self = VStr p
    ∧ (login_count self = VNone
       ∨ (∃ s, login_count self = VStr s)
       ∨ (∃ l, login_count self = VList l)
       ∨ (∃ d, login_count self = VDict d)).
Proof.
  destruct (login_cases self u p w)
    as [[Ha H]|[(Ha & Hne & H)|(Ha & Hu & Hp & [(n & Hn & H)|[Hn H]])]];
    rewrite H; split; try done.
  - intros (_ & ? & _). congruence.
  - intros (_ & _ & Hu & Hp & _). by destruct Hne.
  - intros (_ & _ & _ & _ & Hc). revert Hn.
    by destruct Hc as [->|[[s ->]|[[l ->]|[d ->]]]].
  - intros [= <-]. split_and!; try done.
    destruct (login_count self); try done; eauto.
  - by intros [-> _].
Qed.

(** An account loaded with [login_count] null: the right password raises. *)
Lemma login_raises_iff_witness :
  User.login (set_login_count alice VNone) "alice" "pw1" w0 = Raise TypeError.
Proof.
  apply (proj2 (login_raises_iff (set_login_count alice VNone) "alice" "pw1"
                  w0 TypeError)).
  split_and!; try reflexivity. by left.
Defined.

(** ** Administrator actions on one account *)

(** X4: after [deactivate], [login] on the target returns [False] with
    "Account disabled." for every username and password, the target's own
    included; [deactivate] changes only [active], and doing it twice gives
    the same account as doing it once. *)
Theorem deactivate_blocks_login (self target : user) (u p : string) (w : world) :
  ∃ target' w1,
    AdminUser.deactivate self target w = Ok (target', w1)
    ∧ w1 = mkWorld (stdout w ++ [UserDeactivated (username target)]) (files w)
    ∧ target' = mkUser (cls target) (username target) (password target)
                       (VBool false) (login_count target)
    ∧ User.login target' u p w1
      = Ok ((target', false), mkWorld (stdout w1 ++ [AccountDisabled]) (files w1))
    ∧ ∃ w2, AdminUser.deactivate self target' w1 = Ok (target', w2).
Proof.
  eexists _, _. split; [reflexivity|]. split_and!; try done. by eexists.
Qed.

(** X5: after [reactivate], an account with a string [username], a string
    [password] and an integer [login_count] logs in with these: [login]
    returns [True] and [login_count] is one more, whatever [active] was
    before; [reactivate] changes only [active]. *)
Theorem reactivate_allows_login (self target : user) (u p : string) (n : Z)
    (w : world) :
  username target = VStr u →
  password target = VStr p →
  login_count target = VInt n →
  ∃ target' w1,
    AdminUser.reactivate self target w = Ok (target', w1)
    ∧ w1 = mkWorld (stdout w ++ [UserReactivated (VStr u)]) (files w)
    ∧ target' = mkUser (cls target) (VStr u) (VStr p) (VBool true) (VInt n)
    ∧ User.login target' u p w1
      = Ok ((mkUser (cls target) (VStr u) (VStr p) (VBool true) (VInt (n + 1)),
             true),
            mkWorld (stdout w1 ++ [LoginSuccessful]) (files w1)).
Proof.
  intros Hu Hp Hn. eexists _, _. split; [reflexivity|].
  unfold set_active. simpl. rewrite Hu, Hp, Hn. split_and!; try done.
  unfold User.login, User.check_password. simpl.
  by rewrite !String.eqb_refl.
Qed.

(** [alice] is deactivated, reactivated, and logs in. *)
Lemma reactivate_allows_login_witness :
  ∃ target' w1,
    AdminUser.reactivate default_admin (set_active alice (VBool false)) w0
    = Ok (target', w1)
    ∧ w1 = mkWorld [UserReactivated (VStr "alice")] ∅
    ∧ target' = alice
    ∧ User.login target' "alice" "pw1" w1
      = Ok ((mkUser User_class (VStr "alice") (VStr "pw1") (VBool true) (VInt 1),
             true),
            mkWorld (stdout w1 ++ [LoginSuccessful]) (files w1)).
Proof.
  exact (reactivate_allows_login default_admin (set_active alice (VBool false))
           "alice" "pw1" 0 w0 eq_refl eq_refl eq_refl).
Defined.

(** X6: after [reset_password] to [new_pw], an account with a string
    [username], an integer [login_count] and [active = True] logs in with
    [new_pw], and every other password, the one from before the reset
    included, gives "Invalid credentials.". *)
Theorem reset_password_then_login (self target : user) (u new_pw : string)
    (n : Z) (w : world) :
  username target = VStr u →
  active target = VBool true →
  login_count target = VInt n →
  ∃ target' w1,
    AdminUser.reset_password self target new_pw w = Ok (target', w1)
    ∧ User.login target' u new_pw w1
      = Ok ((set_login_count target' (VInt (n + 1)), true),
            mkWorld (stdout w1 ++ [LoginSuccessful]) (files w1))
    ∧ ∀ pw, pw ≠ new_pw →
        User.login target' u pw w1
        = Ok ((target', false),
              mkWorld (stdout w1 ++ [InvalidCredentials]) (files w1)).
Proof.
  intros Hu Ha Hn. eexists _, _. split; [reflexivity|]. split.
  - by apply login_active_match.
  - intros pw Hne. unfold User.login, User.check_password. simpl.
    rewrite Ha, Hu. simpl. rewrite String.eqb_refl. simpl.
    apply String.eqb_neq in Hne. rewrite String.eqb_sym in Hne.
    by rewrite Hne.
Qed.

(** The password of [alice] is reset; the old one no longer works. *)
Lemma reset_password_then_login_witness :
  ∃ target' w1,
    AdminUser.reset_password default_admin alice "newpw" w0 = Ok (target', w1)
    ∧ User.login target' "alice" "newpw" w1
      = Ok ((set_login_count target' (VInt 1), true),
            mkWorld (stdout w1 ++ [LoginSuccessful]) (files w1))
    ∧ ∀ pw, pw ≠ "newpw" →
        User.login target' "alice" pw w1
        = Ok ((target', false),
              mkWorld (stdout w1 ++ [InvalidCredentials]) (files w1)).
Proof.
  exact (reset_password_then_login default_admin alice "alice" "newpw" 0 w0
           eq_refl eq_refl eq_refl).
Defined.

(** ** Lookup *)

Lemma find_user_spec (users : list user) (u : string) (i : nat) (x : user) :
  find_user users u = Some (i, x)
  ↔ users !! i = Some x
    ∧ username x = VStr u
    ∧ ∀ (j : nat) (y : user),
        (j < i)%nat → users !! j = Some y → username y ≠ VStr u.
Proof.
  revert i x. induction users as [|z users IH]; intros i x; simpl.
  - split; [done | by intros [? _]].
  - destruct (py_eq_str (username z) u) eqn:Hz.
    + apply py_eq_str_true in Hz. split.
      * intros [= <- <-]. split_and!; [done..|]. intros j y ?. lia.
      * intros (Hi & Hx & Hfirst). destruct i as [|i]; [by simplify_eq/=|].
        by destruct (Hfirst 0%nat z ltac:(lia) eq_refl).
    + apply py_eq_str_false in Hz. split.
      * destruct (find_user users u) as [[k y]|] eqn:Hf; [|done].
        intros [= <- <-].
        destruct (proj1 (IH k y) eq_refl) as (Hk & Hy & Hfirst).
        split_and!; [done..|]. intros [|j] y' Hj; simpl.
        -- by intros [= <-].
        -- apply Hfirst. lia.
      * intros (Hi & Hx & Hfirst). destruct i as [|i]; [by simplify_eq/=|].
        simpl in Hi.
        assert (find_user users u = Some (i, x)) as ->; [|done].
        apply IH. split_and!; [done..|]. intros j y Hj Hy.
        apply (Hfirst (S j) y); [lia | done].
Qed.

(** X7: [find_user] returns the first account with the username and its
    position: the result is [(i, x)] exactly when [x] is the account at
    position [i], is named [u], and no account before it is named [u]. *)
Theorem find_user_first_match (users : list user) (u : string) (i : nat)
    (x : user) :
  find_user users u = Some (i, x)
  ↔ users !! i = Some x
    ∧ username x = VStr u
    ∧ ∀ (j : nat) (y : user),
        (j < i)%nat → users !! j = Some y → username y ≠ VStr u.
Proof. apply find_user_spec. Qed.

(** Two accounts named [bob]: the first one is returned. *)
Lemma find_user_first_match_witness :
  users_two_bobs !! 1%nat
  = Some (mkUser User_class (VStr "bob") (VStr "x") (VBool true) (VInt 0))
  ∧ ∀ (j : nat) (y : user),
      (j < 1)%nat → users_two_bobs !! j = Some y → username y ≠ VStr "bob".
Proof.
  destruct (proj1 (find_user_first_match users_two_bobs "bob" 1
                     (mkUser User_class (VStr "bob") (VStr "x") (VBool true)
                             (VInt 0)))
              eq_refl) as (Hi & _ & Hfirst).
  split; [exact Hi | exact Hfirst].
Defined.

(** X8: when no two accounts have the same username, [find_user] finds
    every account under its name, at its own position. *)
Theorem find_user_unique (users : list user) (u : string) (i : nat) (x : user) :
  unique_usernames users →
  users !! i = Some x →
  username x = VStr u →
  find_user users u = Some (i, x).
Proof.
  intros Huniq Hi Hx. apply find_user_spec. split_and!; [done..|].
  intros j y Hj Hy Hname.
  assert (j = i); [|lia].
  apply (NoDup_lookup (username <$> users) j i (VStr u) Huniq);
    rewrite list_lookup_fmap.
  - by rewrite Hy; simpl; rewrite Hname.
  - by rewrite Hi; simpl; rewrite Hx.
Qed.

(** [alice] is found behind the administrator. *)
Lemma find_user_unique_witness :
  find_user [default_admin; alice] "alice" = Some (1%nat, alice).
Proof.
  apply (find_user_unique [default_admin; alice] "alice" 1 alice);
    [|reflexivity..].
  unfold unique_usernames. simpl.
  apply NoDup_cons. split; [|apply NoDup_singleton].
  intros [=]%list_elem_of_singleton.
Defined.

Lemma find_user_insert (users : list user) (i : nat) (x x' : user)
    (u : string) :
  users !! i = Some x →
  username x' = username x →
  (find_user users u = None → find_user (<[i := x']> users) u = None)
  ∧ (∀ (j : nat) (y : user),
       find_user users u = Some (j, y) →
       find_user (<[i := x']> users) u
       = Some (j, if decide (j = i) then x' else y)).
Proof.
  intros Hi Hname. split.
  - rewrite !find_user_None. by rewrite (fmap_insert_same username users i x x').
  - intros j y (Hj & Hy & Hfirst)%find_user_spec.
    apply find_user_spec.
    assert (∀ k z, <[i := x']> users !! k = Some z →
                   ∃ z0, users !! k = Some z0 ∧ username z = username z0)
      as Hback.
    { intros k z Hk. destruct (decide (k = i)) as [->|Hne].
      - rewrite list_lookup_insert_eq in Hk by by eapply lookup_lt_Some.
        injection Hk as <-. eauto.
      - rewrite list_lookup_insert_ne in Hk by done. eauto. }
    split_and!.
    + destruct (decide (j = i)) as [->|Hne].
      * apply list_lookup_insert_eq. by eapply lookup_lt_Some.
      * by rewrite list_lookup_insert_ne.
    + destruct (decide (j = i)) as [->|Hne]; [|done]. congruence.
    + intros k z Hk Hz. destruct (Hback k z Hz) as (z0 & Hz0 & ->).
      by apply (Hfirst k z0).
Qed.

(** X9: an account that is replaced in place by one with the same
    [username] stays where lookups find it: [find_user] gives the same
    positions as before, with the new account at the replaced position. *)
Theorem find_user_after_update (users : list user) (i : nat) (x x' : user)
    (u : string) :
  users !! i = Some x →
  username x' = username x →
  (find_user users u = None → find_user (<[i := x']> users) u = None)
  ∧ (∀ (j : nat) (y : user),
       find_user users u = Some (j, y) →
       find_user (<[i := x']> users) u
       = Some (j, if decide (j = i) then x' else y)).
Proof. apply find_user_insert. Qed.

(** [alice] after a login is found where she was. *)
Lemma find_user_after_update_witness :
  find_user (<[1%nat := set_login_count alice (VInt 1)]> [default_admin; alice])
            "alice"
  = Some (1%nat, set_login_count alice (VInt 1)).
Proof.
  exact (proj2 (find_user_after_update [default_admin; alice] 1 alice
                  (set_login_count alice (VInt 1)) "alice" eq_refl eq_refl)
               1%nat alice eq_refl).
Defined.

(** ** Loading and the start of [main] *)

Lemma load_users_world (filename : string) (users : list user) (w w' : world) :
  load_users filename w = Ok (users, w') → w' = w.
Proof.
  unfold load_users. destruct (files w !! filename) as [raw|].
  - destruct (py_iter raw) as [items|]; [|done]. unfold lift.
    destruct (load_users_loop items []); [|done]. by intros [= _ <-].
  - by intros [= _ <-].
Qed.

Lemma load_users_loop_ok (items : list value) :
  ∀ acc users : list user,
    load_users_loop items acc = Ok users →
    Forall (λ v, ∃ d, v = VDict d ∧ is_Some (d !! "username")
                      ∧ is_Some (d !! "password")) items
    ∧ length users = (length acc + length items)%nat.
Proof.
  induction items as [|v items IH]; intros acc users; simpl.
  - intros [= <-]. split; [done | lia].
  - destruct (load_users_item v) as [x|] eqn:Hitem; [|done].
    intros [Hall Hlen]%IH. rewrite length_app in Hlen. simpl in Hlen.
    split; [|lia]. constructor; [|done].
    destruct v as [| | | | | |d]; try done. exists d. split; [done|].
    destruct (d !! "username") as [un|] eqn:Hu;
      [destruct (d !! "password") as [pw|] eqn:Hp|]; [done|..].
    + destruct (load_users_item_missing d (or_intror Hp)). congruence.
    + destruct (load_users_item_missing d (or_introl Hu)). congruence.
Qed.

Lemma load_users_loop_total (items : list value) :
  Forall (λ v, ∃ d, v = VDict d ∧ is_Some (d !! "username")
                    ∧ is_Some (d !! "password")) items →
  ∀ acc : list user, ∃ users, load_users_loop items acc = Ok users.
Proof.
  induction 1 as [|v items (d & -> & [un Hu] & [pw Hp]) _ IH]; intros acc.
  - by eexists.
  - destruct (load_users_item_record d un pw Hu Hp) as (c & Hitem & _).
    cbn [load_users_loop]. rewrite Hitem. apply IH.
Qed.

(** X10: on a file that is a list, [load_users] returns accounts exactly
    when every item of the list is a record with a [username] and a
    [password]; it then returns one account per item and leaves output
    and files as they are. *)
Theorem load_users_ok_iff (items : list value) (filename : string) (w : world) :
  files w !! filename = Some (VList items) →
  ((∃ users w', load_users filename w = Ok (users, w'))
   ↔ Forall (λ v, ∃ d, v = VDict d ∧ is_Some (d !! "username")
                       ∧ is_Some (d !! "password")) items)
  ∧ (∀ users w',
       load_users filename w = Ok (users, w') →
       length users = length items ∧ w' = w).
Proof.
  intros Hf. unfold load_users. rewrite Hf. simpl. unfold lift. split; [split|].
  - intros (users & w' & Hload).
    destruct (load_users_loop items []) as [us|] eqn:Hloop; [|done].
    by apply load_users_loop_ok in Hloop as [? _].
  - intros Hall. destruct (load_users_loop_total items Hall []) as [us ->].
    by eexists _, _.
  - intros users w'.
    destruct (load_users_loop items []) as [us|] eqn:Hloop; [|done].
    intros [= <- <-]. by apply load_users_loop_ok in Hloop as [_ ?].
Qed.

(** The file of [w_tags] loads as three accounts. *)
Lemma load_users_ok_iff_witness :
  ∃ users w', load_users "users.json" w_tags = Ok (users, w').
Proof.
  apply (proj1 (load_users_ok_iff (VDict <$> records_tags) "users.json" w_tags
                  eq_refl)).
  repeat constructor; eexists; (split; [reflexivity|]); split; by eexists.
Defined.

(** X11: a file that is not a list. [None], a boolean and a number cannot
    be iterated: [TypeError]. A dict yields its keys and a string its
    characters, which have no [get]: [AttributeError], unless there is
    nothing to yield, and then the load returns no accounts. *)
Theorem load_users_not_a_list (raw : value) (filename : string) (w : world) :
  files w !! filename = Some raw →
  match raw with
  | VList _ => True
  | VNone | VBool _ | VInt _ | VFloat _ =>
    load_users filename w = Raise TypeError
  | VStr s =>
    load_users filename w
    = if decide (s = "") then Ok ([], w) else Raise AttributeError
  | VDict d =>
    load_users filename w
    = if decide (d = ∅) then Ok ([], w) else Raise AttributeError
  end.
Proof.
  intros Hf. unfold load_users. rewrite Hf.
  destruct raw as [| | | |s| |d]; try done.
  - by destruct s.
  - simpl. destruct (map_to_list d) as [|[k v] l] eqn:Hl.
    + apply map_to_list_empty_iff in Hl. by rewrite decide_True.
    + rewrite decide_False; [done|]. intros ->.
      by rewrite map_to_list_empty in Hl.
Qed.

(** A [users.json] that holds one record and not a list of records. *)
Lemma load_users_not_a_list_witness :
  load_users "users.json"
    (mkWorld [] {[ "users.json" := VDict (record "User" "dave" "d") ]})
  = Raise AttributeError.
Proof.
  exact (load_users_not_a_list (VDict (record "User" "dave" "d")) "users.json"
           (mkWorld [] {[ "users.json" := VDict (record "User" "dave" "d") ]})
           eq_refl).
Defined.

(** X12: without a [users.json], or with one that is the empty list, the
    start of [main] reports that no admin was found and gives a store of
    exactly one account: the [AdminUser] named [admin] with password
    [admin123], active, never logged in. No file is written. *)
Theorem startup_default_admin (w : world) :
  files w !! "users.json" = None ∨ files w !! "users.json" = Some (VList []) →
  main_startup w
  = Ok ([mkUser AdminUser_class (VStr "admin") (VStr "admin123")
                (VBool true) (VInt 0)],
        mkWorld (stdout w ++ [NoAdminFound]) (files w)).
Proof.
  intros Hf. unfold main_startup, bind, load_users.
  by destruct Hf as [-> | ->].
Qed.

(** The first start. *)
Lemma startup_default_admin_witness :
  main_startup w0 = Ok ([default_admin], mkWorld [NoAdminFound] ∅).
Proof. exact (startup_default_admin w0 (or_introl eq_refl)). Defined.

Lemma startup_admin (w w' : world) (users : list user) :
  main_startup w = Ok (users, w') → has_admin users.
Proof.
  unfold main_startup, bind.
  destruct (load_users "users.json" w) as [[loaded w1]|]; [|done].
  destruct (existsb isinstance_AdminUser loaded) eqn:Hex; simpl.
  - intros [= <- _]. by apply has_admin_existsb.
  - intros [= <- _]. unfold has_admin. rewrite fmap_app.
    apply elem_of_app. right. apply list_elem_of_here.
Qed.

(** X13: whenever the start of [main] returns, the store has an
    [AdminUser]: it is the loaded store when that has one, and else the
    loaded store followed by the default administrator. No file is
    written. *)
Theorem startup_ensures_admin (w w' : world) (users : list user) :
  main_startup w = Ok (users, w') →
  has_admin users
  ∧ files w' = files w
  ∧ ∃ loaded,
      load_users "users.json" w = Ok (loaded, w)
      ∧ ((has_admin loaded ∧ users = loaded ∧ w' = w)
         ∨ (¬ has_admin loaded
            ∧ users = loaded ++ [mkUser AdminUser_class (VStr "admin")
                                   (VStr "admin123") (VBool true) (VInt 0)]
            ∧ w' = mkWorld (stdout w ++ [NoAdminFound]) (files w))).
Proof.
  unfold main_startup, bind.
  destruct (load_users "users.json" w) as [[loaded w1]|] eqn:Hload; [|done].
  apply load_users_world in Hload as ->.
  destruct (existsb isinstance_AdminUser loaded) eqn:Hex; simpl.
  - apply has_admin_existsb in Hex. intros [= <- <-].
    split_and!; [done..|]. exists loaded. split; [done|]. by left.
  - intros [= <- <-]. split_and!; [|done|].
    + unfold has_admin. rewrite fmap_app. apply elem_of_app. right.
      apply list_elem_of_here.
    + exists loaded. split; [done|]. right. split_and!; [|done..].
      intros Hadm%has_admin_existsb. congruence.
Qed.

(** The file of [w_regular_admin] has no administrator: one is added. *)
Lemma startup_ensures_admin_witness :
  has_admin [mkUser User_class (VStr "admin") (VStr "pw") (VBool true) (VInt 0);
             default_admin].
Proof.
  exact (proj1 (startup_ensures_admin w_regular_admin
                  (mkWorld [NoAdminFound] (files w_regular_admin))
                  [mkUser User_class (VStr "admin") (VStr "pw") (VBool true)
                          (VInt 0);
                   default_admin] eq_refl)).
Defined.

(** ** The admin sub-menu *)

Lemma admin_actions_changed (users users' : list user)
    (admin_name admin_pw : string) (choice : admin_choice) (w w' : world) :
  admin_actions users admin_name admin_pw choice w = Ok (users', w') →
  users' ≠ users →
  ∃ (i : nat) (x : user),
    find_user users admin_name = Some (i, x)
    ∧ cls x = AdminUser_class
    ∧ truthy (active x) = true
    ∧ password x = VStr admin_pw.
Proof.
  unfold admin_actions.
  destruct (find_user users admin_name) as [[i x]|] eqn:Hfind;
    [|by intros [= <- _]].
  unfold isinstance_AdminUser.
  destruct (cls x) eqn:Hcls; simpl; [by intros [= <- _]|].
  apply find_user_Some in Hfind as [Hi _].
  unfold bind at 1.
  destruct (login_cases x admin_name admin_pw w)
    as [[_ ->]|[(_ & _ & ->)|(Ha & _ & Hp & [(n & _ & ->)|[_ ->]])]];
    simpl; try done.
  - rewrite list_insert_id by done. by intros [= <- _].
  - rewrite list_insert_id by done. by intros [= <- _].
  - intros _ _. by exists i, x.
Qed.

(** X14: [admin_actions] changes the store only for an administrator who
    logs in: when the store after it differs from the store before, the
    first account named [admin_name] is an [AdminUser], is not disabled,
    and has exactly the password given. *)
Theorem admin_actions_needs_admin (users users' : list user)
    (admin_name admin_pw : string) (choice : admin_choice) (w w' : world) :
  admin_actions users admin_name admin_pw choice w = Ok (users', w') →
  users' ≠ users →
  ∃ (i : nat) (x : user),
    find_user users admin_name = Some (i, x)
    ∧ cls x = AdminUser_class
    ∧ truthy (active x) = true
    ∧ password x = VStr admin_pw.
Proof. apply admin_actions_changed. Qed.

(** The administrator gives the right password and goes back: the login
    was counted. *)
Lemma admin_actions_needs_admin_witness :
  ∃ (i : nat) (x : user),
    find_user [default_admin; alice] "admin" = Some (i, x)
    ∧ cls x = AdminUser_class
    ∧ truthy (active x) = true
    ∧ password x = VStr "admin123".
Proof.
  apply (admin_actions_needs_admin [default_admin; alice]
           [set_login_count default_admin (VInt 1); alice]
           "admin" "admin123" Admin_back w0
           (mkWorld [LoginSuccessful; AdminMenu; BackToMainMenu] ∅) eq_refl).
  discriminate.
Defined.

(** X15: whenever [admin_actions] returns, the store has the accounts it
    had, in the same number and order, each with the [username] and the
    class it had, and the files are as they were. *)
Theorem admin_actions_frame (users users' : list user)
    (admin_name admin_pw : string) (choice : admin_choice) (w w' : world) :
  admin_actions users admin_name admin_pw choice w = Ok (users', w') →
  length users' = length users
  ∧ username <$> users' = username <$> users
  ∧ cls <$> users' = cls <$> users
  ∧ files w' = files w.
Proof.
  intros (Hn & Hc & Hw)%admin_actions_preserves.
  split_and!; [|done..].
  by rewrite <- (length_fmap username users'), Hn, length_fmap.
Qed.

(** The administrator deactivates [alice]. *)
Lemma admin_actions_frame_witness :
  username <$> [set_login_count default_admin (VInt 1);
                set_active alice (VBool false)]
  = username <$> [default_admin; alice].
Proof.
  exact (proj1 (proj2 (admin_actions_frame [default_admin; alice]
           [set_login_count default_admin (VInt 1);
            set_active alice (VBool false)]
           "admin" "admin123" (Admin_b "alice") w0
           (mkWorld [LoginSuccessful; AdminMenu; UserDeactivated (VStr "alice")] ∅)
           eq_refl))).
Defined.

Lemma admin_login_store (users : list user) (a : string) (i : nat) (x : user)
    (n : Z) :
  find_user users a = Some (i, x) →
  ∀ target : string,
    VStr target ∈ username <$> users →
    ∃ (t : nat) (y : user),
      find_user (<[i := set_login_count x (VInt (n + 1))]> users) target
      = Some (t, y)
      ∧ ∀ y', username y' = username y →
          find_user (<[t := y']> (<[i := set_login_count x (VInt (n + 1))]> users))
                    target
          = Some (t, y').
Proof.
  intros Hfind target Hin.
  apply find_user_Some in Hfind as [Hi Hu].
  destruct (find_user_present users target Hin) as [[t y0] Ht].
  destruct (find_user_insert users i x (set_login_count x (VInt (n + 1)))
              target Hi eq_refl) as [_ Hupd].
  specialize (Hupd t y0 Ht).
  eexists t, _. split; [exact Hupd|]. intros y' Hy'.
  destruct (find_user_Some _ _ _ _ Hupd) as [Ht1 _].
  destruct (find_user_insert _ t _ y' target Ht1 Hy') as [_ Hupd2].
  rewrite (Hupd2 t _ Hupd). by rewrite decide_True.
Qed.

(** X16: what an administrator who logs in does to a target is seen by
    the next lookup of the target, also when the target is the
    administrator's own account: after choice [a] the account that
    [find_user] returns has the new password, after [b] it has
    [active = False], after [c] it has [active = True]. *)
Theorem admin_actions_visible (users : list user) (a p target new_pw : string)
    (i : nat) (x : user) (n : Z) (w : world) :
  find_user users a = Some (i, x) →
  cls x = AdminUser_class →
  active x = VBool true →
  password x = VStr p →
  login_count x = VInt n →
  VStr target ∈ username <$> users →
  (∃ users' w' t y,
     admin_actions users a p (Admin_a target new_pw) w = Ok (users', w')
     ∧ find_user users' target = Some (t, y)
     ∧ password y = VStr new_pw)
  ∧ (∃ users' w' t y,
       admin_actions users a p (Admin_b target) w = Ok (users', w')
       ∧ find_user users' target = Some (t, y)
       ∧ active y = VBool false)
  ∧ (∃ users' w' t y,
       admin_actions users a p (Admin_c target) w = Ok (users', w')
       ∧ find_user users' target = Some (t, y)
       ∧ active y = VBool true).
Proof.
  intros Hfind Hcls Ha Hp Hn Hin.
  destruct (admin_login_store users a i x n Hfind target Hin)
    as (t & y & Ht & Hafter).
  destruct (find_user_Some _ _ _ _ Hfind) as [_ Hu].
  unfold admin_actions. rewrite Hfind. unfold isinstance_AdminUser.
  rewrite Hcls. cbn [negb]. unfold bind. cbv beta.
  rewrite (login_active_match x a p n w Hu Hp Ha Hn). simpl. rewrite Ht.
  run_monad.
  split_and!; eexists _, _, t, _; (split; [reflexivity|]);
    (split; [by apply Hafter|done]).
Qed.

(** The administrator resets the administrator's own password. *)
Lemma admin_actions_visible_witness :
  ∃ users' w' t y,
    admin_actions [default_admin; alice] "admin" "admin123"
                  (Admin_a "admin" "s3cret") w0 = Ok (users', w')
    ∧ find_user users' "admin" = Some (t, y)
    ∧ password y = VStr "s3cret".
Proof.
  apply (admin_actions_visible [default_admin; alice] "admin" "admin123"
           "admin" "s3cret" 0 default_admin 0 w0
           eq_refl eq_refl eq_refl eq_refl eq_refl).
  apply list_elem_of_here.
Defined.

(** ** The menu *)

(** X17: choice 2 with a username that no account has reports "User not
    found." and changes nothing; the password is not looked at. *)
Theorem menu_login_unknown (users : list user) (u p : string) (w : world) :
  VStr u ∉ username <$> users →
  main_iteration (Menu_2 u p) users w
  = Ok ((users, true), mkWorld (stdout w ++ [UserNotFound]) (files w)).
Proof.
  intros Hnot%find_user_None. unfold main_iteration. by rewrite Hnot.
Qed.

(** [bob] has no account. *)
Lemma menu_login_unknown_witness :
  main_iteration (Menu_2 "bob" "b") [default_admin; alice] w0
  = Ok (([default_admin; alice], true), mkWorld [UserNotFound] ∅).
Proof.
  apply (menu_login_unknown [default_admin; alice] "bob" "b" w0).
  intros [[=]|[[=]|[]%elem_of_nil]%elem_of_cons]%elem_of_cons.
Defined.

(** X18: an account created by choice 1 logs in at once by choice 2 with
    the password it was created with, which makes its [login_count] 1;
    with any other password choice 2 reports "Invalid credentials." and
    the store stays as choice 1 left it. *)
Theorem create_then_login (users : list user) (u p : string) (w : world) :
  VStr u ∉ username <$> users →
  ∃ users1 w1,
    main_iteration (Menu_1 u p) users w = Ok ((users1, true), w1)
    ∧ main_iteration (Menu_2 u p) users1 w1
      = Ok ((users ++ [mkUser User_class (VStr u) (VStr p) (VBool true) (VInt 1)],
             true),
            mkWorld (stdout w ++ [UserCreated u; LoginSuccessful]) (files w))
    ∧ ∀ p', p' ≠ p →
        main_iteration (Menu_2 u p') users1 w1
        = Ok ((users1, true),
              mkWorld (stdout w ++ [UserCreated u; InvalidCredentials])
                      (files w)).
Proof.
  intros Hnot%find_user_None.
  pose proof (find_user_appended users u
                (mkUser User_class (VStr u) (VStr p) (VBool true) (VInt 0))
                Hnot eq_refl) as Hfound.
  exists (users ++ [mkUser User_class (VStr u) (VStr p) (VBool true) (VInt 0)]),
         (mkWorld (stdout w ++ [UserCreated u]) (files w)).
  split; [unfold main_iteration; by rewrite Hnot|].
  assert (∀ x' : user,
            <[length users := x']>
              (users ++ [mkUser User_class (VStr u) (VStr p) (VBool true) (VInt 0)])
            = users ++ [x']) as Hins.
  { intros x'. rewrite insert_app_r_alt by lia.
    by rewrite Nat.sub_diag. }
  split.
  - unfold main_iteration. rewrite Hfound. unfold bind.
    rewrite (login_active_match
               (mkUser User_class (VStr u) (VStr p) (VBool true) (VInt 0))
               u p 0 _ eq_refl eq_refl eq_refl eq_refl).
    run_monad. by rewrite Hins, <- app_assoc.
  - intros p' Hne. unfold main_iteration. rewrite Hfound. unfold bind.
    rewrite login_mismatch; [|done|].
    + run_monad. by rewrite list_insert_id, <- app_assoc
        by by apply find_user_Some in Hfound as [? _].
    + right. simpl. congruence.
Qed.

(** [bob] is created and logs in. *)
Lemma create_then_login_witness :
  ∃ users1 w1,
    main_iteration (Menu_1 "bob" "b") [default_admin] w0 = Ok ((users1, true), w1)
    ∧ main_iteration (Menu_2 "bob" "b") users1 w1
      = Ok (([default_admin]
             ++ [mkUser User_class (VStr "bob") (VStr "b") (VBool true) (VInt 1)],
             true),
            mkWorld (stdout w0 ++ [UserCreated "bob"; LoginSuccessful]) (files w0))
    ∧ ∀ p', p' ≠ "b" →
        main_iteration (Menu_2 "bob" p') users1 w1
        = Ok ((users1, true),
              mkWorld (stdout w0 ++ [UserCreated "bob"; InvalidCredentials])
                      (files w0)).
Proof.
  apply (create_then_login [default_admin] "bob" "b" w0).
  intros [[=]|[]%elem_of_nil]%elem_of_cons.
Defined.

Lemma print_users_spec (users : list user) :
  ∀ w,
    print_users users w
    = Ok (tt, mkWorld
                (stdout w
                 ++ ((λ u, UserLine (username u)
                                    (if isinstance_AdminUser u
                                     then "Admin" else "User")
                                    (active u) (login_count u)) <$> users))
                (files w)).
Proof.
  induction users as [|x users IH]; intros w; simpl.
  - unfold ret. rewrite app_nil_r. by destruct w.
  - run_monad. rewrite IH. simpl. by rewrite <- app_assoc.
Qed.

(** X19: whenever choice 3 returns, it has printed the header and then
    one line per account, in the order of the store, with the username,
    [Admin] or [User] by class, [active] and [login_count]; the store
    and the files are as they were, and the loop goes on. *)
Theorem menu_list (users users' : list user) (continue : bool) (w w' : world) :
  main_iteration Menu_3 users w = Ok ((users', continue), w') →
  users' = users
  ∧ continue = true
  ∧ files w' = files w
  ∧ stdout w'
    = stdout w ++ UsersHeader ::
        ((λ u, UserLine (username u)
                        (if isinstance_AdminUser u then "Admin" else "User")
                        (active u) (login_count u)) <$> users).
Proof.
  unfold main_iteration. run_monad. rewrite print_users_spec. simpl.
  intros [= <- <- <-]. simpl. by rewrite <- app_assoc.
Qed.

(** The listing of the administrator and [alice]. *)
Lemma menu_list_witness :
  stdout (mkWorld [UsersHeader;
                   UserLine (VStr "admin") "Admin" (VBool true) (VInt 0);
                   UserLine (VStr "alice") "User" (VBool true) (VInt 0)] ∅)
  = stdout w0 ++ UsersHeader ::
      ((λ u, UserLine (username u)
                      (if isinstance_AdminUser u then "Admin" else "User")
                      (active u) (login_count u)) <$> [default_admin; alice]).
Proof.
  exact (proj2 (proj2 (proj2 (menu_list [default_admin; alice]
           [default_admin; alice] true w0
           (mkWorld [UsersHeader;
                     UserLine (VStr "admin") "Admin" (VBool true) (VInt 0);
                     UserLine (VStr "alice") "User" (VBool true) (VInt 0)] ∅)
           eq_refl)))).
Defined.

(** X20: for a store in whose attributes no integer has more than 4300
    decimal digits, choices 5 and 6 write the store to [users.json] and
    leave the store as it is, and only choice 6 ends the loop; when the
    store has an [AdminUser], a new start of [main] on the files then
    gives back the same store and adds no account. *)
Theorem save_then_restart (users : list user) (w : world) :
  has_admin users →
  forallb dumpable users = true →
  ∃ w5 w6,
    main_iteration Menu_5 users w = Ok ((users, true), w5)
    ∧ main_iteration Menu_6 users w = Ok ((users, false), w6)
    ∧ stdout w5 = stdout w ++ [Saved (length users) "users.json"]
    ∧ stdout w6 = stdout w ++ [Saved (length users) "users.json"; Goodbye]
    ∧ files w5 = <["users.json" := VList ((λ u, VDict (to_dict u)) <$> users)]>
                   (files w)
    ∧ files w6 = files w5
    ∧ main_startup w5 = Ok (users, w5)
    ∧ main_startup w6 = Ok (users, w6).
Proof.
  intros Hadm%has_admin_existsb Hok.
  pose proof (proj2 (save_users_ok users "users.json" w _) (conj Hok eq_refl))
    as Hsave.
  eexists _, _. unfold main_iteration, bind. rewrite Hsave.
  split; [reflexivity|]. split; [reflexivity|]. simpl.
  split_and!; try done; [by rewrite <- app_assoc|..];
    unfold main_startup, bind;
    (erewrite load_users_saved; [|simpl; apply lookup_insert_eq]);
    by rewrite Hadm.
Qed.

(** The store of the first start, saved and loaded again. *)
Lemma save_then_restart_witness :
  ∃ w5 w6,
    main_iteration Menu_5 [default_admin; alice] w0
    = Ok (([default_admin; alice], true), w5)
    ∧ main_iteration Menu_6 [default_admin; alice] w0
      = Ok (([default_admin; alice], false), w6)
    ∧ stdout w5 = stdout w0 ++ [Saved 2 "users.json"]
    ∧ stdout w6 = stdout w0 ++ [Saved 2 "users.json"; Goodbye]
    ∧ files w5
      = <["users.json" :=
            VList ((λ u, VDict (to_dict u)) <$> [default_admin; alice])]>
          (files w0)
    ∧ files w6 = files w5
    ∧ main_startup w5 = Ok ([default_admin; alice], w5)
    ∧ main_startup w6 = Ok ([default_admin; alice], w6).
Proof.
  apply (save_then_restart [default_admin; alice] w0).
  - apply list_elem_of_here.
  - vm_compute. reflexivity.
Defined.

(** ** What the loop keeps *)

Lemma iteration_shape (choice : command) (users users' : list user)
    (continue : bool) (w w' : world) :
  main_iteration choice users w = Ok ((users', continue), w') →
  (length users' = length users
   ∧ username <$> users' = username <$> users
   ∧ cls <$> users' = cls <$> users)
  ∨ (∃ u p,
       choice = Menu_1 u p
       ∧ (VStr u ∉ username <$> users)
       ∧ users' = users ++ [mkUser User_class (VStr u) (VStr p)
                                   (VBool true) (VInt 0)]).
Proof.
  destruct choice as [u p|u p| |a p c| | |]; simpl.
  - destruct (find_user users u) eqn:Hfind; intros [= <- _ _]; [by left|].
    right. exists u, p. by apply find_user_None in Hfind.
  - destruct (find_user users u) as [[i x]|] eqn:Hfind;
      [|intros [= <- _ _]; by left].
    unfold bind.
    destruct (User.login x u p w) as [[[x' ok] w1]|e] eqn:Hlogin; [|done].
    intros [= <- _ _]. left.
    apply login_preserves in Hlogin as (Hn & Hc & _).
    apply find_user_Some in Hfind as [Hi _].
    destruct (insert_preserves users i x x' Hi Hn Hc) as [-> ->].
    by rewrite length_insert.
  - unfold bind at 1. simpl. unfold bind. rewrite print_users_spec.
    intros [= <- _ _]. by left.
  - unfold bind.
    destruct (admin_actions users a p c w) as [[users1 w1]|e] eqn:Hadm; [|done].
    intros [= <- _ _]. left.
    apply admin_actions_preserves in Hadm as (Hn & Hc & _).
    split_and!; [|done..].
    by rewrite <- (length_fmap username users1), Hn, length_fmap.
  - unfold bind. destruct (save_users users "users.json" w) as [[[] w1]|e];
      [|done]. intros [= <- _ _]. by left.
  - unfold bind. destruct (save_users users "users.json" w) as [[[] w1]|e];
      [|done]. intros [= <- _ _]. by left.
  - intros [= <- _ _]. by left.
Qed.

Lemma iteration_has_admin (choice : command) (users users' : list user)
    (continue : bool) (w w' : world) :
  main_iteration choice users w = Ok ((users', continue), w') →
  has_admin users → has_admin users'.
Proof.
  intros Hiter. unfold has_admin.
  destruct (iteration_shape _ _ _ _ _ _ Hiter)
    as [(_ & _ & ->)|(u & p & _ & _ & ->)]; [done|].
  rewrite fmap_app. intros ?. apply elem_of_app. by left.
Qed.

(** X21: an iteration of the menu loop never removes an account, never
    changes a [username] and never changes the class of an account: the
    store keeps its length, usernames and classes, or else the choice was
    1 with a username that no account had, and the store is the old one
    followed by the new [User]. If the store had an [AdminUser], it still
    has one. *)
Theorem iteration_keeps_accounts (choice : command) (users users' : list user)
    (continue : bool) (w w' : world) :
  main_iteration choice users w = Ok ((users', continue), w') →
  ((length users' = length users
    ∧ username <$> users' = username <$> users
    ∧ cls <$> users' = cls <$> users)
   ∨ (∃ u p,
        choice = Menu_1 u p
        ∧ (VStr u ∉ username <$> users)
        ∧ users' = users ++ [mkUser User_class (VStr u) (VStr p)
                                    (VBool true) (VInt 0)]))
  ∧ (has_admin users → has_admin users').
Proof.
  intros Hiter. split.
  - by eapply iteration_shape.
  - by eapply iteration_has_admin.
Qed.

(** The administrator deactivates [alice]: she is still in the store. *)
Lemma iteration_keeps_accounts_witness :
  has_admin [set_login_count default_admin (VInt 1);
             set_active alice (VBool false)].
Proof.
  apply (proj2 (iteration_keeps_accounts
                  (Menu_4 "admin" "admin123" (Admin_b "alice"))
                  [default_admin; alice]
                  [set_login_count default_admin (VInt 1);
                   set_active alice (VBool false)]
                  true w0
                  (mkWorld [LoginSuccessful; AdminMenu;
                            UserDeactivated (VStr "alice")] ∅)
                  eq_refl)).
  apply list_elem_of_here.
Defined.

Lemma iteration_break (choice : command) (users users' : list user)
    (w w' : world) :
  main_iteration choice users w = Ok ((users', false), w') →
  choice = Menu_6
  ∧ users' = users
  ∧ files w' !! "users.json"
    = Some (VList ((λ u, VDict (to_dict u)) <$> users))
  ∧ last (stdout w') = Some Goodbye.
Proof.
  destruct choice as [u p|u p| |a p c| | |]; simpl; try done.
  - by destruct (find_user users u).
  - destruct (find_user users u) as [[i x]|]; [|done]. unfold bind.
    by destruct (User.login x u p w) as [[[x' ok] w1]|e].
  - unfold bind at 1. simpl. unfold bind. by rewrite print_users_spec.
  - unfold bind. by destruct (admin_actions users a p c w) as [[users1 w1]|e].
  - unfold bind. by destruct (save_users users "users.json" w) as [[[] w1]|e].
  - unfold bind.
    destruct (save_users users "users.json" w) as [[[] w1]|e] eqn:Hsave;
      [|done].
    apply save_users_ok in Hsave as [_ ->]. intros [= <- <-]. simpl.
    split_and!; try done.
    + apply lookup_insert_eq.
    + by rewrite last_snoc.
Qed.

Lemma main_loop_exit (input : list command) :
  ∀ (users users' : list user) (w w' : world),
    has_admin users →
    main_loop input users w = Ok (users', w') →
    Menu_6 ∈ input
    ∧ has_admin users'
    ∧ files w' !! "users.json"
      = Some (VList ((λ u, VDict (to_dict u)) <$> users'))
    ∧ last (stdout w') = Some Goodbye.
Proof.
  induction input as [|choice input IH]; intros users users' w w' Hadm;
    [done|].
  cbn [main_loop]. unfold bind at 1.
  destruct (main_iteration choice users w) as [[[users1 continue] w1]|e]
    eqn:Hiter; [|done].
  destruct continue.
  - intros Hloop.
    pose proof (iteration_has_admin _ _ _ _ _ _ Hiter Hadm) as Hadm1.
    destruct (IH users1 users' w1 w' Hadm1 Hloop) as (? & ? & ? & ?).
    split_and!; [|done..]. by apply list_elem_of_further.
  - intros [= <- <-].
    apply iteration_break in Hiter as (-> & -> & ? & ?).
    split_and!; [|done..]. apply list_elem_of_here.
Qed.

(** X22: [main] returns only after choice 6 was entered. Its last message
    is then "Goodbye!", [users.json] holds the store of that moment, which
    has an [AdminUser], and a new start of [main] on these files gives
    that store back. *)
Theorem main_returns (input : list command) (w w' : world) :
  main input w = Ok (tt, w') →
  Menu_6 ∈ input
  ∧ last (stdout w') = Some Goodbye
  ∧ ∃ users',
      has_admin users'
      ∧ files w' !! "users.json"
        = Some (VList ((λ u, VDict (to_dict u)) <$> users'))
      ∧ main_startup w' = Ok (users', w').
Proof.
  unfold main, bind.
  destruct (main_startup w) as [[users w1]|] eqn:Hstart; [|done].
  destruct (main_loop input users w1) as [[users' w2]|] eqn:Hloop; [|done].
  intros [= <-].
  apply startup_admin in Hstart.
  destruct (main_loop_exit input users users' w1 w2 Hstart Hloop)
    as (Hin & Hadm & Hfile & Hlast).
  split_and!; [done..|]. exists users'. split_and!; [done..|].
  unfold main_startup, bind. rewrite (load_users_saved users' _ _ Hfile).
  apply has_admin_existsb in Hadm. by rewrite Hadm.
Qed.

(** A first run: [alice] is created, then the program is left. *)
Lemma main_returns_witness :
  Menu_6 ∈ [Menu_1 "alice" "pw1"; Menu_6]
  ∧ ∃ users',
      has_admin users'
      ∧ main_startup w_first_run = Ok (users', w_first_run).
Proof.
  destruct (main_returns [Menu_1 "alice" "pw1"; Menu_6] w0 w_first_run eq_refl)
    as (Hin & _ & users' & Hadm & _ & Hstart).
  split; [exact Hin|]. exists users'. split; [exact Hadm | exact Hstart].
Defined.

(** ** Stores whose attributes have the declared types *)

Lemma login_well_typed (x : user) (u p : string) (w : world) :
  well_typed x →
  ∃ x' b w', User.login x u p w = Ok ((x', b), w') ∧ well_typed x'.
Proof.
  intros (n & q & a & k & Hu & Hp & Ha & Hk).
  destruct (login_cases x u p w)
    as [[_ ->]|[(_ & _ & ->)|(_ & _ & _ & [(m & Hm & ->)|[Hm _]])]].
  - eexists _, _, _. split; [done|]. by exists n, q, a, k.
  - eexists _, _, _. split; [done|]. by exists n, q, a, k.
  - eexists _, _, _. split; [done|]. rewrite Hk in Hm. injection Hm as <-.
    by exists n, q, a, (k + 1).
  - by rewrite Hk in Hm.
Qed.

Lemma set_password_well_typed (x : user) (pw : string) :
  well_typed x → well_typed (set_password x (VStr pw)).
Proof. intros (n & q & a & k & ? & ? & ? & ?). by exists n, pw, a, k. Qed.

Lemma set_active_well_typed (x : user) (b : bool) :
  well_typed x → well_typed (set_active x (VBool b)).
Proof. intros (n & q & a & k & ? & ? & ? & ?). by exists n, q, b, k. Qed.

Lemma admin_actions_well_typed (users : list user) (a p : string)
    (c : admin_choice) (w : world) :
  Forall well_typed users →
  ∃ users' w',
    admin_actions users a p c w = Ok (users', w') ∧ Forall well_typed users'.
Proof.
  intros Hall. unfold admin_actions.
  destruct (find_user users a) as [[i x]|] eqn:Hfind; [|by eexists _, _].
  destruct (negb (isinstance_AdminUser x)); [by eexists _, _|].
  apply find_user_Some in Hfind as [Hi _].
  destruct (login_well_typed x a p w) as (x' & ok & w1 & Hlogin & Hx').
  { by eapply Forall_lookup_1. }
  unfold bind at 1. rewrite Hlogin.
  assert (Forall well_typed (<[i := x']> users)) as Hall1
    by by apply Forall_insert.
  generalize dependent (<[i := x']> users). intros users1 Hall1.
  destruct ok; simpl; [|by eexists _, _].
  destruct c as [target new_pw|target|target|]; run_monad;
    try (destruct (find_user users1 target) as [[t y]|] eqn:Ht;
         [apply find_user_Some in Ht as [Ht _]|]);
    eexists _, _; (split; [reflexivity|]); try done;
    apply Forall_insert; try done;
    first [apply set_password_well_typed | apply set_active_well_typed];
    by eapply Forall_lookup_1.
Qed.

Lemma iteration_total (choice : command) (users : list user) (w : world) :
  Forall well_typed users →
  (∃ users' continue w',
     main_iteration choice users w = Ok ((users', continue), w')
     ∧ Forall well_typed users'
     ∧ (continue = false ↔ choice = Menu_6))
  ∨ main_iteration choice users w = Raise ValueError.
Proof.
  intros Hall. destruct choice as [u p|u p| |a p c| | |]; simpl.
  - left. destruct (find_user users u); eexists _, _, _;
      (split; [reflexivity|]); (split; [|done]); [done|].
    apply Forall_app. split; [done|]. constructor; [|done].
    by exists u, p, true, 0.
  - left. destruct (find_user users u) as [[i x]|] eqn:Hfind;
      [|by eexists _, _, _].
    apply find_user_Some in Hfind as [Hi _].
    destruct (login_well_typed x u p w) as (x' & ok & w1 & Hlogin & Hx').
    { by eapply Forall_lookup_1. }
    unfold bind. rewrite Hlogin. eexists _, _, _. split; [reflexivity|].
    split; [by apply Forall_insert | done].
  - left. unfold bind at 1. simpl. unfold bind. rewrite print_users_spec.
    by eexists _, _, _.
  - left. destruct (admin_actions_well_typed users a p c w Hall)
      as (users1 & w1 & Hadm & Hall1).
    unfold bind. rewrite Hadm. by eexists _, _, _.
  - unfold bind.
    destruct (save_users users "users.json" w) as [[[] w1]|e] eqn:Hsave.
    + left. by eexists _, _, _.
    + right. by apply save_users_raises in Hsave as [_ ->].
  - unfold bind.
    destruct (save_users users "users.json" w) as [[[] w1]|e] eqn:Hsave.
    + left. by eexists _, _, _.
    + right. by apply save_users_raises in Hsave as [_ ->].
  - left. by eexists _, _, _.
Qed.

(** X23: a store in which every account has a string [username], a
    string [password], a boolean [active] and an integer [login_count]
    stays of that kind: whenever an iteration of the menu loop returns,
    the store after it is again of that kind, and the loop is left
    exactly on choice 6; and on such a store no iteration raises
    [TypeError], the exception of a [login_count] that cannot be
    counted up. *)
Theorem iteration_well_typed (choice : command) (users : list user) (w : world) :
  Forall well_typed users →
  main_iteration choice users w ≠ Raise TypeError
  ∧ ∀ users' continue w',
      main_iteration choice users w = Ok ((users', continue), w') →
      Forall well_typed users'
      ∧ (continue = false ↔ choice = Menu_6).
Proof.
  intros Hall.
  destruct (iteration_total choice users w Hall)
    as [(users1 & c1 & w1 & -> & Hall1 & Hbreak)| ->]; [|done].
  split; [done|]. by intros users' continue w' [= <- <- <-].
Qed.

(** The administrator logs in with a wrong password. *)
Lemma iteration_well_typed_witness :
  main_iteration (Menu_2 "admin" "guess") [default_admin; alice] w0
  ≠ Raise TypeError
  ∧ Forall well_typed [default_admin; alice].
Proof.
  destruct (iteration_well_typed (Menu_2 "admin" "guess")
              [default_admin; alice] w0) as [Hno Hkeep].
  - repeat constructor.
    + by exists "admin", "admin123", true, 0.
    + by exists "alice", "pw1", true, 0.
  - split; [exact Hno|].
    exact (proj1 (Hkeep [default_admin; alice] true
                    (mkWorld [InvalidCredentials] ∅) eq_refl)).
Defined.

(** ** What an iteration may change *)

Lemma login_keeps_secret (x x' : user) (u p : string) (b : bool) (w w' : world) :
  User.login x u p w = Ok ((x', b), w') →
  password x' = password x ∧ active x' = active x
  ∧ (login_count x' = login_count x
     ∨ py_add_one (login_count x) = Ok (login_count x')).
Proof.
  destruct (login_cases x u p w)
    as [[_ ->]|[(_ & _ & ->)|(_ & _ & _ & [(m & Hm & ->)|[_ ->]])]];
    [| | |done]; intros [= <- _ _]; split_and!; auto.
Qed.

Lemma lookup_insert_cases {A} (l : list A) (i j : nat) (x x' y' : A) :
  l !! i = Some x →
  <[i := x']> l !! j = Some y' →
  l !! j = Some y' ∨ (j = i ∧ y' = x').
Proof.
  intros Hi Hj. destruct (decide (j = i)) as [->|Hne].
  - rewrite list_lookup_insert_eq in Hj by by eapply lookup_lt_Some.
    right. by injection Hj as <-.
  - rewrite list_lookup_insert_ne in Hj by done. by left.
Qed.

(** X25: an iteration of the menu loop changes the [password] or the
    [active] of an account only through the admin sub-menu, and only when
    the first account with the name given there is an [AdminUser] that is
    not disabled and has exactly the password given. *)
Theorem iteration_credentials_guarded (choice : command)
    (users users' : list user) (continue : bool) (w w' : world)
    (i : nat) (x x' : user) :
  main_iteration choice users w = Ok ((users', continue), w') →
  users !! i = Some x →
  users' !! i = Some x' →
  password x' ≠ password x ∨ active x' ≠ active x →
  ∃ admin_name admin_pw c (j : nat) (adm : user),
    choice = Menu_4 admin_name admin_pw c
    ∧ find_user users admin_name = Some (j, adm)
    ∧ cls adm = AdminUser_class
    ∧ truthy (active adm) = true
    ∧ password adm = VStr admin_pw.
Proof.
  intros Hiter Hi Hi' Hdiff.
  assert (x' ≠ x) as Hne by (intros ->; by destruct Hdiff).
  destruct choice as [u p|u p| |a p c| | |]; simpl in Hiter.
  - destruct (find_user users u); injection Hiter as <- _ _;
      [congruence|].
    rewrite lookup_app_l in Hi' by by eapply lookup_lt_Some. congruence.
  - destruct (find_user users u) as [[k y]|] eqn:Hfind;
      [|injection Hiter as <- _ _; congruence].
    revert Hiter. unfold bind.
    destruct (User.login y u p w) as [[[y' ok] w1]|e] eqn:Hlogin; [|done].
    intros [= <- _ _].
    apply find_user_Some in Hfind as [Hk _].
    apply login_keeps_secret in Hlogin as (Hp & Ha & _).
    destruct (lookup_insert_cases users k i y y' x' Hk Hi') as [?|[-> ->]];
      [congruence|].
    assert (y = x) as -> by congruence. by destruct Hdiff.
  - revert Hiter. unfold bind at 1. simpl. unfold bind.
    rewrite print_users_spec. intros [= <- _ _]. congruence.
  - revert Hiter. unfold bind.
    destruct (admin_actions users a p c w) as [[users1 w1]|e] eqn:Hadm; [|done].
    intros [= <- _ _].
    destruct (admin_actions_changed users users1 a p c w w1 Hadm)
      as (j & adm & ? & ? & ? & ?); [congruence|].
    by exists a, p, c, j, adm.
  - revert Hiter. unfold bind.
    destruct (save_users users "users.json" w) as [[[] w1]|e]; [|done].
    intros [= <- _ _]. congruence.
  - revert Hiter. unfold bind.
    destruct (save_users users "users.json" w) as [[[] w1]|e]; [|done].
    intros [= <- _ _]. congruence.
  - injection Hiter as <- _ _. congruence.
Qed.

(** The administrator resets the password of [alice]. *)
Lemma iteration_credentials_guarded_witness :
  ∃ admin_name admin_pw c (j : nat) (adm : user),
    Menu_4 "admin" "admin123" (Admin_a "alice" "new")
    = Menu_4 admin_name admin_pw c
    ∧ find_user [default_admin; alice] admin_name = Some (j, adm)
    ∧ cls adm = AdminUser_class
    ∧ truthy (active adm) = true
    ∧ password adm = VStr admin_pw.
Proof.
  apply (iteration_credentials_guarded
           (Menu_4 "admin" "admin123" (Admin_a "alice" "new"))
           [default_admin; alice]
           [set_login_count default_admin (VInt 1);
            set_password alice (VStr "new")]
           true w0
           (mkWorld [LoginSuccessful; AdminMenu; PasswordReset (VStr "alice")] ∅)
           1 alice (set_password alice (VStr "new"))
           eq_refl eq_refl eq_refl).
  left. discriminate.
Defined.

Lemma admin_actions_counts (users users' : list user) (a p : string)
    (c : admin_choice) (w w' : world) (i : nat) (x' : user) :
  admin_actions users a p c w = Ok (users', w') →
  users' !! i = Some x' →
  ∃ x, users !! i = Some x
       ∧ (login_count x' = login_count x
          ∨ py_add_one (login_count x) = Ok (login_count x')).
Proof.
  unfold admin_actions.
  destruct (find_user users a) as [[k y]|] eqn:Hfind;
    [|intros [= <- _] Hi; exists x'; by auto].
  destruct (negb (isinstance_AdminUser y));
    [intros [= <- _] Hi; exists x'; by auto|].
  unfold bind at 1.
  destruct (User.login y a p w) as [[[y' ok] w1]|e] eqn:Hlogin; [|done].
  apply login_keeps_secret in Hlogin as (_ & _ & Hcount).
  apply find_user_Some in Hfind as [Hk _].
  assert (∀ j z', <[k := y']> users !! j = Some z' →
            ∃ z, users !! j = Some z
                 ∧ (login_count z' = login_count z
                    ∨ py_add_one (login_count z) = Ok (login_count z')))
    as Hstep.
  { intros j z' Hj.
    destruct (lookup_insert_cases users k j y y' z' Hk Hj) as [?|[-> ->]];
      [exists z'; by auto | by exists y]. }
  generalize dependent (<[k := y']> users). intros users1 Hstep.
  destruct ok; simpl; [|intros [= <- _] Hi; by apply Hstep].
  assert (∀ t z z1, users1 !! t = Some z → login_count z1 = login_count z →
            <[t := z1]> users1 !! i = Some x' →
            ∃ x, users !! i = Some x
                 ∧ (login_count x' = login_count x
                    ∨ py_add_one (login_count x) = Ok (login_count x')))
    as Hset.
  { intros t z z1 Ht Hz1 Hi.
    destruct (lookup_insert_cases users1 t i z z1 x' Ht Hi) as [?|[-> ->]];
      [by apply Hstep|].
    rewrite Hz1. by apply Hstep. }
  destruct c as [target new_pw|target|target|]; run_monad;
    try (destruct (find_user users1 target) as [[t z]|] eqn:Ht;
         [apply find_user_Some in Ht as [Ht _]|]);
    intros [= <- _] Hi;
    first [by apply Hstep | by eapply (Hset t z); [exact Ht| |exact Hi]].
Qed.

(** X26: an iteration of the menu loop leaves the [login_count] of every
    account as it was or adds one to it; no count is lowered or reset. *)
Theorem iteration_login_count (choice : command) (users users' : list user)
    (continue : bool) (w w' : world) (i : nat) (x : user) :
  main_iteration choice users w = Ok ((users', continue), w') →
  users !! i = Some x →
  ∃ x',
    users' !! i = Some x'
    ∧ (login_count x' = login_count x
       ∨ py_add_one (login_count x) = Ok (login_count x'))
    ∧ ∀ k, login_count x = VInt k →
        login_count x' = VInt k ∨ login_count x' = VInt (k + 1).
Proof.
  intros Hiter Hi.
  assert (∃ x', users' !! i = Some x'
                ∧ (login_count x' = login_count x
                   ∨ py_add_one (login_count x) = Ok (login_count x')))
    as (x' & Hi' & Hstep).
  { assert (∃ x', users' !! i = Some x') as [x' Hi'].
    { apply lookup_lt_is_Some. apply lookup_lt_Some in Hi.
      destruct (iteration_shape _ _ _ _ _ _ Hiter)
        as [(-> & _)|(? & ? & _ & _ & ->)]; [done|].
      rewrite length_app. lia. }
    exists x'. split; [done|].
    destruct choice as [u p|u p| |a p c| | |]; simpl in Hiter.
    - destruct (find_user users u); injection Hiter as <- _ _;
        [left; congruence|].
      rewrite lookup_app_l in Hi' by by eapply lookup_lt_Some.
      left. congruence.
    - destruct (find_user users u) as [[k y]|] eqn:Hfind;
        [|injection Hiter as <- _ _; left; congruence].
      revert Hiter. unfold bind.
      destruct (User.login y u p w) as [[[y' ok] w1]|e] eqn:Hlogin; [|done].
      intros [= <- _ _].
      apply find_user_Some in Hfind as [Hk _].
      apply login_keeps_secret in Hlogin as (_ & _ & Hcount).
      destruct (lookup_insert_cases users k i y y' x' Hk Hi') as [?|[-> ->]];
        [left; congruence|].
      by assert (y = x) as -> by congruence.
    - revert Hiter. unfold bind at 1. simpl. unfold bind.
      rewrite print_users_spec. intros [= <- _ _]. left. congruence.
    - revert Hiter. unfold bind.
      destruct (admin_actions users a p c w) as [[users1 w1]|e] eqn:Hadm;
        [|done].
      intros [= <- _ _].
      destruct (admin_actions_counts _ _ _ _ _ _ _ _ _ Hadm Hi')
        as (x0 & Hx0 & Hstep).
      by assert (x0 = x) as -> by congruence.
    - revert Hiter. unfold bind.
      destruct (save_users users "users.json" w) as [[[] w1]|e]; [|done].
      intros [= <- _ _]. left. congruence.
    - revert Hiter. unfold bind.
      destruct (save_users users "users.json" w) as [[[] w1]|e]; [|done].
      intros [= <- _ _]. left. congruence.
    - injection Hiter as <- _ _. left. congruence. }
  exists x'. split_and!; [done..|]. intros k Hk. rewrite Hk in Hstep.
  destruct Hstep as [->|[= <-]]; auto.
Qed.

(** [alice] logs in from the menu. *)
Lemma iteration_login_count_witness :
  ∃ x',
    [default_admin; set_login_count alice (VInt 1)] !! 1%nat = Some x'
    ∧ (login_count x' = login_count alice
       ∨ py_add_one (login_count alice) = Ok (login_count x'))
    ∧ ∀ k, login_count alice = VInt k →
        login_count x' = VInt k ∨ login_count x' = VInt (k + 1).
Proof.
  exact (iteration_login_count (Menu_2 "alice" "pw1") [default_admin; alice]
           [default_admin; set_login_count alice (VInt 1)] true w0
           (mkWorld [LoginSuccessful] ∅) 1 alice eq_refl eq_refl).
Defined.

(** X27: an iteration of the menu loop writes no file except on choices
    5 and 6, which replace [users.json] by the record list of the store
    and leave every other file as it is. *)
Theorem iteration_files (choice : command) (users users' : list user)
    (continue : bool) (w w' : world) :
  main_iteration choice users w = Ok ((users', continue), w') →
  match choice with
  | Menu_5 | Menu_6 =>
    files w' = <["users.json" := VList ((λ u, VDict (to_dict u)) <$> users)]>
                 (files w)
    ∧ ∀ filename, filename ≠ "users.json" →
        files w' !! filename = files w !! filename
  | _ => files w' = files w
  end.
Proof.
  destruct choice as [u p|u p| |a p c| | |]; simpl.
  - by destruct (find_user users u); intros [= _ _ <-].
  - destruct (find_user users u) as [[k y]|]; [|by intros [= _ _ <-]].
    unfold bind.
    destruct (User.login y u p w) as [[[y' ok] w1]|e] eqn:Hlogin; [|done].
    intros [= _ _ <-]. by apply login_preserves in Hlogin as (_ & _ & ?).
  - unfold bind at 1. simpl. unfold bind. rewrite print_users_spec.
    by intros [= _ _ <-].
  - unfold bind.
    destruct (admin_actions users a p c w) as [[users1 w1]|e] eqn:Hadm; [|done].
    intros [= _ _ <-]. by apply admin_actions_preserves in Hadm as (_ & _ & ?).
  - unfold bind.
    destruct (save_users users "users.json" w) as [[[] w1]|e] eqn:Hsave;
      [|done].
    apply save_users_ok in Hsave as [_ ->].
    intros [= _ _ <-]. simpl. split; [done|]. intros f Hf.
    by rewrite lookup_insert_ne.
  - unfold bind.
    destruct (save_users users "users.json" w) as [[[] w1]|e] eqn:Hsave;
      [|done].
    apply save_users_ok in Hsave as [_ ->].
    intros [= _ _ <-]. simpl. split; [done|]. intros f Hf.
    by rewrite lookup_insert_ne.
  - by intros [= _ _ <-].
Qed.

(** Another file is still there after a save. *)
Lemma iteration_files_witness :
  files (mkWorld [Saved 1 "users.json"]
           (<["users.json" := VList [VDict (to_dict default_admin)]]>
              {[ "notes.txt" := VStr "keep" ]}))
  = <["users.json" := VList ((λ u, VDict (to_dict u)) <$> [default_admin])]>
      {[ "notes.txt" := VStr "keep" ]}
  ∧ ∀ filename, filename ≠ "users.json" →
      files (mkWorld [Saved 1 "users.json"]
               (<["users.json" := VList [VDict (to_dict default_admin)]]>
                  {[ "notes.txt" := VStr "keep" ]})) !! filename
      = ({[ "notes.txt" := VStr "keep" ]} : gmap string value) !! filename.
Proof.
  exact (iteration_files Menu_5 [default_admin] [default_admin] true
           (mkWorld [] {[ "notes.txt" := VStr "keep" ]})
           (mkWorld [Saved 1 "users.json"]
              (<["users.json" := VList [VDict (to_dict default_admin)]]>
                 {[ "notes.txt" := VStr "keep" ]}))
           eq_refl).
Defined.

(** ** Uniqueness of usernames, kept *)

(** The usernames of the loaded accounts are the [username] fields of
    the records, in order. *)
Lemma load_users_record_names (records : list (gmap string value))
    (filename : string) (w w' : world) (users : list user) :
  files w !! filename = Some (VList (VDict <$> records)) →
  load_users filename w = Ok (users, w') →
  (λ d : gmap string value, d !! "username") <$> records
  = Some <$> (username <$> users).
Proof.
  intros Hf. unfold load_users. rewrite Hf. simpl. unfold lift.
  destruct (load_users_loop (VDict <$> records) []) as [us|] eqn:Hloop;
    [|done].
  intros [= <- _].
  apply load_users_loop_ok in Hloop as Hall. destruct Hall as [Hall _].
  rewrite Forall_fmap in Hall.
  assert (Forall (λ d : gmap string value,
                    is_Some (d !! "username") ∧ is_Some (d !! "password"))
                 records) as Hrec.
  { eapply Forall_impl; [exact Hall|]. simpl.
    by intros d (d' & [= <-] & ? & ?). }
  destruct (load_users_loop_records records Hrec []) as (us' & Hloop' & Hrel).
  rewrite Hloop in Hloop'. injection Hloop' as ->.
  clear Hloop Hall Hrec Hf. simpl in Hrel.
  induction Hrel as [|d u records us' (_ & _ & Hname & _) _ IH]; [done|].
  rewrite !fmap_cons. by rewrite Hname, IH.
Qed.

Lemma load_users_not_list (raw : value) (filename : string) (w w' : world)
    (users : list user) :
  files w !! filename = Some raw →
  (∀ items, raw ≠ VList items) →
  load_users filename w = Ok (users, w') →
  users = [].
Proof.
  intros Hf Hnot. unfold load_users. rewrite Hf.
  destruct raw as [| | | |s| |d]; simpl; try done.
  - destruct s; simpl; [by intros [= <- _] | done].
  - by destruct (Hnot l).
  - destruct (map_to_list d) as [|[k v] l]; simpl; [by intros [= <- _] | done].
Qed.

Lemma iteration_unique (choice : command) (users users' : list user)
    (continue : bool) (w w' : world) :
  unique_usernames users →
  main_iteration choice users w = Ok ((users', continue), w') →
  unique_usernames users'.
Proof.
  unfold unique_usernames. intros Huniq Hiter.
  destruct (iteration_shape _ _ _ _ _ _ Hiter)
    as [(_ & -> & _)|(u & p & _ & Hfresh & ->)]; [done|].
  rewrite fmap_app. simpl.
  apply NoDup_app. split_and!; [done| |apply NoDup_singleton].
  by intros v Hv ->%list_elem_of_singleton.
Qed.

Lemma startup_unique (w w1 w' : world) (loaded users : list user) :
  load_users "users.json" w = Ok (loaded, w1) →
  unique_usernames loaded →
  has_admin loaded ∨ VStr "admin" ∉ username <$> loaded →
  main_startup w = Ok (users, w') →
  unique_usernames users.
Proof.
  intros Hload Huniq Hcond. unfold main_startup, bind. rewrite Hload.
  destruct (existsb isinstance_AdminUser loaded) eqn:Hex; simpl.
  - by intros [= <- _].
  - intros [= <- _]. destruct Hcond as [Hadm%has_admin_existsb|Hfree];
      [congruence|].
    unfold unique_usernames. rewrite fmap_app. simpl.
    apply NoDup_app. split_and!; [done| |apply NoDup_singleton].
    by intros v Hv ->%list_elem_of_singleton.
Qed.

(** C2, amended: when [users.json] is absent, or is not a list, the
    store after load has no account; when it is a list of records, the
    store after load has a username twice exactly when the file has, so
    that a file with distinct usernames loads as a store with distinct
    usernames. The start of [main] keeps the usernames of the loaded
    store distinct when an [AdminUser] was loaded, and it then adds
    nothing, or when no loaded account is named [admin]. Every iteration
    of the menu loop, account creation included, keeps the usernames
    distinct in any store where they are distinct. *)
Theorem usernames_unique_kept :
  (∀ (filename : string) (w w' : world) (users : list user),
     (∀ items, files w !! filename ≠ Some (VList items)) →
     load_users filename w = Ok (users, w') →
     users = [] ∧ unique_usernames users)
  ∧ (∀ (records : list (gmap string value)) (filename : string)
       (w w' : world) (users : list user),
       files w !! filename = Some (VList (VDict <$> records)) →
       load_users filename w = Ok (users, w') →
       (unique_usernames users
        ↔ NoDup ((λ d : gmap string value, d !! "username") <$> records)))
  ∧ (∀ (w w1 w' : world) (loaded users : list user),
       load_users "users.json" w = Ok (loaded, w1) →
       unique_usernames loaded →
       has_admin loaded ∨ VStr "admin" ∉ username <$> loaded →
       main_startup w = Ok (users, w') →
       unique_usernames users)
  ∧ (∀ (choice : command) (users users' : list user) (continue : bool)
       (w w' : world),
       unique_usernames users →
       main_iteration choice users w = Ok ((users', continue), w') →
       unique_usernames users').
Proof.
  split_and!.
  - intros filename w w' users Hnot Hload.
    assert (users = []) as ->; [|split; [done | apply NoDup_nil_2]].
    destruct (files w !! filename) as [raw|] eqn:Hf.
    + apply (load_users_not_list raw filename w w' users Hf); [|done].
      intros items ->. by destruct (Hnot items).
    + unfold load_users in Hload. rewrite Hf in Hload.
      by injection Hload as <- _.
  - intros records filename w w' users Hf Hload. unfold unique_usernames.
    rewrite (load_users_record_names records filename w w' users Hf Hload).
    symmetry. apply (NoDup_fmap Some).
  - apply startup_unique.
  - apply iteration_unique.
Qed.

(** The file of [w_tags] has three names, all different; [alice] is then
    created. *)
Lemma usernames_unique_kept_witness :
  unique_usernames
    [ mkUser AdminUser_class (VStr "root") (VStr "r00t") (VBool true) (VInt 0);
      mkUser User_class (VStr "mod") (VStr "m0d") (VBool true) (VInt 0);
      mkUser User_class (VStr "carol") (VStr "c") (VBool true) (VInt 0) ]
  ∧ unique_usernames
      [ mkUser AdminUser_class (VStr "root") (VStr "r00t") (VBool true) (VInt 0);
        mkUser User_class (VStr "mod") (VStr "m0d") (VBool true) (VInt 0);
        mkUser User_class (VStr "carol") (VStr "c") (VBool true) (VInt 0);
        alice ].
Proof.
  destruct usernames_unique_kept as (_ & Hload & Hstart & Hiter).
  assert (unique_usernames
    [ mkUser AdminUser_class (VStr "root") (VStr "r00t") (VBool true) (VInt 0);
      mkUser User_class (VStr "mod") (VStr "m0d") (VBool true) (VInt 0);
      mkUser User_class (VStr "carol") (VStr "c") (VBool true) (VInt 0) ])
    as Hloaded.
  { apply (Hload records_tags "users.json" w_tags w_tags _ eq_refl eq_refl).
    repeat (apply NoDup_cons; split;
            [intros Hin; repeat (apply elem_of_cons in Hin as [[=]|Hin]);
             by apply elem_of_nil in Hin|]).
    apply NoDup_nil_2. }
  split.
  - apply (Hstart w_tags w_tags w_tags _ _ eq_refl Hloaded); [|reflexivity].
    left. apply list_elem_of_here.
  - exact (Hiter (Menu_1 "alice" "pw1") _ _ true w_tags
             (mkWorld [UserCreated "alice"] (files w_tags)) Hloaded eq_refl).
Defined.
